(** * Facial-tension scoring engine: region analyzers and aggregator

    A shallow embedding of the scoring core of the repository:
    - [utils.py]: [calculate_distance], [calculate_angle];
    - [pain_analyzers/*.py]: the five region analyzers
      ([BrowAnalyzer], [EyeAnalyzer], [GrimaceAnalyzer], [JawAnalyzer],
      [NasolabialAnalyzer]) with [set_baseline], [analyze], [reset_history];
    - [agents/facial_agent.py]: [FacialAgent._analyze_pain].

    Numbers.  The code computes with NumPy [float64] scalars.  They are
    modelled by the type [float64] below: a finite value is an exact real
    number (rounding, overflow and the sign of zero are idealised away), and
    the three special values [PInf], [NInf] and [NaN] follow the IEEE rules
    NumPy applies (a division by zero is a warning there, not an exception,
    and produces an infinity or a NaN).  Every denominator of the code is a
    norm, an angle in degrees, or a positive constant, so a zero denominator
    is always the positive zero.

    Landmark arrays are lists of 3D points with finite coordinates; an index
    past the end raises [IndexError] as NumPy does. *)

From Stdlib Require Import Reals Lra Lia List Bool ZArith PeanoNat.
From Stdlib Require String.
Import ListNotations.
Import String.StringSyntax.
Delimit Scope string_scope with string.

Set Implicit Arguments.

(* ================================================================== *)
(** * NumPy scalars *)
(* ================================================================== *)

Module Np.

Inductive float64 : Type :=
| Fin (x : R)
| PInf
| NInf
| NaN.

Definition Rltb (x y : R) : bool := if Rlt_dec x y then true else false.
Definition Reqb (x y : R) : bool := if Req_dec_T x y then true else false.

Definition neg (a : float64) : float64 :=
  match a with
  | Fin x => Fin (- x)
  | PInf => NInf
  | NInf => PInf
  | NaN => NaN
  end.

Definition add (a b : float64) : float64 :=
  match a, b with
  | NaN, _ | _, NaN => NaN
  | Fin x, Fin y => Fin (x + y)
  | PInf, NInf | NInf, PInf => NaN
  | PInf, _ | _, PInf => PInf
  | NInf, _ | _, NInf => NInf
  end.

Definition sub (a b : float64) : float64 := add a (neg b).

(** An infinity times a finite value: NaN at zero, else the sign rule. *)
Definition scale_inf (inf : float64) (x : R) : float64 :=
  if Reqb x 0 then NaN else if Rltb 0 x then inf else neg inf.

Definition mul (a b : float64) : float64 :=
  match a, b with
  | NaN, _ | _, NaN => NaN
  | Fin x, Fin y => Fin (x * y)
  | Fin x, PInf | PInf, Fin x => scale_inf PInf x
  | Fin x, NInf | NInf, Fin x => scale_inf NInf x
  | PInf, PInf | NInf, NInf => PInf
  | PInf, NInf | NInf, PInf => NInf
  end.

(** [x / 0] is an infinity of the sign of [x], and [0 / 0] is NaN. *)
Definition div (a b : float64) : float64 :=
  match a, b with
  | NaN, _ | _, NaN => NaN
  | Fin x, Fin y =>
      if Reqb y 0
      then (if Reqb x 0 then NaN else if Rltb 0 x then PInf else NInf)
      else Fin (x / y)
  | Fin _, PInf | Fin _, NInf => Fin 0
  | PInf, Fin y => if Rltb y 0 then NInf else PInf
  | NInf, Fin y => if Rltb y 0 then PInf else NInf
  | _, _ => NaN
  end.

Definition abs (a : float64) : float64 :=
  match a with
  | Fin x => Fin (Rabs x)
  | PInf | NInf => PInf
  | NaN => NaN
  end.

(** [a < b]; every comparison with NaN is false. *)
Definition ltb (a b : float64) : bool :=
  match a, b with
  | NaN, _ | _, NaN => false
  | Fin x, Fin y => Rltb x y
  | NInf, NInf | PInf, _ | _, NInf => false
  | NInf, _ | _, PInf => true
  end.

(** [np.clip(a, lo, hi)]: NaN stays NaN. *)
Definition clip (a lo hi : float64) : float64 :=
  match a with
  | NaN => NaN
  | _ => if ltb a lo then lo else if ltb hi a then hi else a
  end.

(** [np.arccos]: NaN outside [-1, 1]. *)
Definition arccos (a : float64) : float64 :=
  match a with
  | Fin x => if Rltb x (-1) || Rltb 1 x then NaN else Fin (acos x)
  | _ => NaN
  end.

(** [np.degrees]. *)
Definition degrees (a : float64) : float64 := mul a (Fin (180 / PI)).

(** [np.sum] of a one-dimensional array. *)
Definition sum (a : list float64) : float64 := fold_left add a (Fin 0).

(** [np.multiply] of two arrays of one length. *)
Definition multiply (a b : list float64) : list float64 :=
  map (fun ab => mul (fst ab) (snd ab)) (combine a b).

(** [np.linspace(start, stop, num)]: [num] evenly spaced samples with both
    end points. *)
Definition linspace (start stop : R) (num : nat) : list float64 :=
  map (fun i => Fin (start + INR i * ((stop - start) / INR (num - 1))))
      (seq 0 num).

(** [np.average(a, weights=w)]: the weighted sum over the sum of weights.
    (NumPy raises when the weights sum to zero; the weights of
    [linspace 0.5 1.0 n] never do.) *)
Definition average (a weights : list float64) : float64 :=
  div (sum (multiply a weights)) (sum weights).

(** Python's built-in [min(a, b)] and [max(a, b)] keep the first argument
    unless the second compares strictly better. *)
Definition py_min (a b : float64) : float64 := if ltb b a then b else a.
Definition py_max (a b : float64) : float64 := if ltb a b then b else a.

End Np.

Export Np.

Declare Scope np_scope.
Delimit Scope np_scope with np.
Bind Scope np_scope with float64.
Infix "+" := Np.add : np_scope.
Infix "-" := Np.sub : np_scope.
Infix "*" := Np.mul : np_scope.
Infix "/" := Np.div : np_scope.

(** A Python number that may still be the [int] the code returned. *)
Inductive pynum : Type :=
| PyInt (n : Z)
| PyFloat (x : float64).

Definition to_float (v : pynum) : float64 :=
  match v with
  | PyInt n => Fin (IZR n)
  | PyFloat x => x
  end.

(* ================================================================== *)
(** * Exceptions and the analyzer monad *)
(* ================================================================== *)

Inductive exn : Type := IndexError | ZeroDivisionError | TypeError.

Inductive result (A : Type) : Type :=
| Ok (a : A)
| Raise (e : exn).
Arguments Ok {A} a.
Arguments Raise {A} e.

(** A method of an object with state [S]: it returns or raises, and leaves
    the object in the state reached so far. *)
Definition M (S A : Type) : Type := S -> result A * S.

Definition ret {S A} (a : A) : M S A := fun s => (Ok a, s).

Definition bind {S A B} (m : M S A) (k : A -> M S B) : M S B :=
  fun s => match m s with
           | (Ok a, s') => k a s'
           | (Raise e, s') => (Raise e, s')
           end.

Definition get {S} : M S S := fun s => (Ok s, s).
Definition put {S} (s : S) : M S unit := fun _ => (Ok tt, s).
Definition lift {S A} (r : result A) : M S A := fun s => (r, s).

Notation "x <- m ;; k" := (bind m (fun x => k))
  (at level 61, m at next level, right associativity).
Notation "m ;;; k" := (bind m (fun _ => k))
  (at level 61, right associativity).

(** [x] where the code uses an attribute as a number: [None] in arithmetic
    is a [TypeError]. *)
Definition number {S} (x : option float64) : M S float64 :=
  match x with
  | Some v => ret v
  | None => lift (Raise TypeError)
  end.

Definition is_not_None {A} (x : option A) : bool :=
  match x with Some _ => true | None => false end.

(* ================================================================== *)
(** * Geometry primitives ([utils.py]) *)
(* ================================================================== *)

Record point : Type := mkpoint { px : R; py : R; pz : R }.

Definition landmarks : Type := list point.

Open Scope R_scope.

Definition vsub (p q : point) : point :=
  mkpoint (px p - px q) (py p - py q) (pz p - pz q).
Definition vadd (p q : point) : point :=
  mkpoint (px p + px q) (py p + py q) (pz p + pz q).
Definition vscale (k : R) (p : point) : point :=
  mkpoint (k * px p) (k * py p) (k * pz p).
Definition vdiv (p : point) (k : R) : point :=
  mkpoint (px p / k) (py p / k) (pz p / k).

Definition dot (p q : point) : R := px p * px q + py p * py q + pz p * pz q.

(** [np.linalg.norm] on a vector of three reals. *)
Definition norm (p : point) : R := sqrt (px p * px p + py p * py p + pz p * pz p).

(** [np.mean(points, axis=0)] of a two-row array. *)
Definition mean2 (pq : point * point) : point :=
  vdiv (vadd (fst pq) (snd pq)) 2.

(** [landmarks[i]]. *)
Definition index {S} (l : landmarks) (i : nat) : M S point :=
  match nth_error l i with
  | Some p => ret p
  | None => lift (Raise IndexError)
  end.

(** [landmarks[[i, j]]]: both rows, or [IndexError]. *)
Definition index2 {S} (l : landmarks) (ij : nat * nat) : M S (point * point) :=
  p <- index l (fst ij) ;;
  q <- index l (snd ij) ;;
  ret (p, q).

Definition calculate_distance (point1 point2 : point) : float64 :=
  Fin (norm (vsub point1 point2)).

Definition calculate_angle (point1 point2 point3 : point) : float64 :=
  let vector1 := vsub point1 point2 in
  let vector2 := vsub point3 point2 in
  let cos_angle :=
    (Fin (dot vector1 vector2) / (Fin (norm vector1) * Fin (norm vector2)))%np in
  let cos_angle := Np.clip cos_angle (Fin (-1)) (Fin 1) in
  let angle := Np.arccos cos_angle in
  Np.degrees angle.

(** The expression [abs(current - baseline) / baseline], which every
    analyzer writes out for each of its measurements. *)
Definition relative_change (current baseline : float64) : float64 :=
  (Np.abs (current - baseline) / baseline)%np.

(* ================================================================== *)
(** * Temporal smoothing (the same lines in every analyzer) *)
(* ================================================================== *)

(** [self.history.append(score)], then [pop(0)] when the list is longer
    than [history_size]. *)
Definition append_history (history_size : nat) (history : list float64)
  (score : float64) : list float64 :=
  let history := history ++ [score] in
  if (history_size <? length history)%nat then tl history else history.

(** The weighted average favouring recent frames. *)
Definition smooth (history : list float64) (score : float64) : float64 :=
  if (1 <? length history)%nat
  then Np.average history (Np.linspace 0.5 1.0 (length history))
  else score.

Definition modify {S} (f : S -> S) : M S unit := fun s => (Ok tt, f s).

(* ================================================================== *)
(** * [pain_analyzers/brow_analyzer.py] *)
(* ================================================================== *)

Module BrowAnalyzer.

Record state : Type := mkstate {
  baseline_distance_left : option float64;
  baseline_distance_right : option float64;
  baseline_angle : option float64;
  history : list float64
}.

Record score_record : Type := mkrecord {
  tension_score : float64;
  tension_percentage : float64;
  smoothed_score : float64;
  smoothed_percentage : float64;
  left_distance : float64;
  right_distance : float64;
  angle : float64;
  has_baseline : bool
}.

(** [landmark_indices.get('eyebrow_left', [70, 107])]: neither caller's
    dictionary changes the default. *)
Definition eyebrow_left : nat * nat := (70, 107)%nat.
Definition eyebrow_right : nat * nat := (336, 300)%nat.
Definition history_size : nat := 5.

(** [__init__] *)
Definition init : state := mkstate None None None [].

Definition set_baseline_distance_left (v : float64) (s : state) : state :=
  mkstate (Some v) (baseline_distance_right s) (baseline_angle s) (history s).
Definition set_baseline_distance_right (v : float64) (s : state) : state :=
  mkstate (baseline_distance_left s) (Some v) (baseline_angle s) (history s).
Definition set_baseline_angle (v : float64) (s : state) : state :=
  mkstate (baseline_distance_left s) (baseline_distance_right s) (Some v) (history s).
Definition set_history (h : list float64) (s : state) : state :=
  mkstate (baseline_distance_left s) (baseline_distance_right s) (baseline_angle s) h.

Definition set_baseline (landmarks : landmarks) : M state unit :=
  left_points <- index2 landmarks eyebrow_left ;;
  right_points <- index2 landmarks eyebrow_right ;;
  modify (set_baseline_distance_left
            (calculate_distance (fst left_points) (snd left_points))) ;;;
  modify (set_baseline_distance_right
            (calculate_distance (fst right_points) (snd right_points))) ;;;
  let center_left := mean2 left_points in
  let center_right := mean2 right_points in
  nose_bridge <- index landmarks 168 ;;
  modify (set_baseline_angle (calculate_angle center_left nose_bridge center_right)).

(** The score of the baseline branch. *)
Definition baseline_score (current_distance_left current_distance_right
  current_angle : float64) (self : state) : M state float64 :=
  baseline_left <- number (baseline_distance_left self) ;;
  let left_change := relative_change current_distance_left baseline_left in
  baseline_right <- number (baseline_distance_right self) ;;
  let right_change := relative_change current_distance_right baseline_right in
  baseline <- number (baseline_angle self) ;;
  let angle_change := relative_change current_angle baseline in
  ret ((left_change + right_change + angle_change) / Fin 3.0)%np.

(** The score of the branch on absolute measurements. *)
Definition absolute_score (current_distance_left current_distance_right
  current_angle : float64) : float64 :=
  let angle_factor := (Fin 1.0 - current_angle / Fin 180.0)%np in
  let avg_distance := ((current_distance_left + current_distance_right) / Fin 2.0)%np in
  let distance_factor := (Fin 1.0 - py_min (avg_distance * Fin 10) (Fin 1.0))%np in
  (angle_factor * Fin 0.6 + distance_factor * Fin 0.4)%np.

Definition analyze (landmarks : landmarks) (use_baseline : bool)
  : M state score_record :=
  left_points <- index2 landmarks eyebrow_left ;;
  right_points <- index2 landmarks eyebrow_right ;;
  let current_distance_left :=
    calculate_distance (fst left_points) (snd left_points) in
  let current_distance_right :=
    calculate_distance (fst right_points) (snd right_points) in
  let center_left := mean2 left_points in
  let center_right := mean2 right_points in
  nose_bridge <- index landmarks 168 ;;
  let current_angle := calculate_angle center_left nose_bridge center_right in
  self <- get ;;
  tension_score <-
    (if use_baseline && is_not_None (baseline_distance_left self)
     then baseline_score current_distance_left current_distance_right
            current_angle self
     else ret (absolute_score current_distance_left current_distance_right
                 current_angle)) ;;
  let tension_score := Np.clip (tension_score * Fin 3.5)%np (Fin 0.0) (Fin 1.0) in
  let tension_percentage := (tension_score * Fin 100)%np in
  modify (fun self =>
            set_history (append_history history_size (history self) tension_score)
              self) ;;;
  self <- get ;;
  let smoothed_score := smooth (history self) tension_score in
  let smoothed_percentage := (smoothed_score * Fin 100)%np in
  ret (mkrecord tension_score tension_percentage smoothed_score
         smoothed_percentage current_distance_left current_distance_right
         current_angle (is_not_None (baseline_distance_left self))).

Definition reset_history : M state unit := modify (set_history []).

Definition get_description (score : float64) : String.string :=
  let percentage := (score * Fin 100)%np in
  if Np.ltb percentage (Fin 20) then "minimal tension"%string
  else if Np.ltb percentage (Fin 40) then "slight tension"%string
  else if Np.ltb percentage (Fin 60) then "moderate tension"%string
  else if Np.ltb percentage (Fin 80) then "significant tension"%string
  else "severe tension (furrowed brows)"%string.

End BrowAnalyzer.

(* ================================================================== *)
(** * [pain_analyzers/eye_analyzer.py] *)
(* ================================================================== *)

Module EyeAnalyzer.

Record state : Type := mkstate {
  baseline_left_aperture : option float64;
  baseline_right_aperture : option float64;
  baseline_left_width : option float64;
  baseline_right_width : option float64;
  history : list float64
}.

Record score_record : Type := mkrecord {
  squint_score : float64;
  squint_percentage : float64;
  smoothed_score : float64;
  smoothed_percentage : float64;
  left_aperture : float64;
  right_aperture : float64;
  left_aspect_ratio : float64;
  right_aspect_ratio : float64;
  has_baseline : bool
}.

Definition left_upper : nat := 159.
Definition left_lower : nat := 145.
Definition right_upper : nat := 386.
Definition right_lower : nat := 374.
Definition left_inner : nat := 133.
Definition left_outer : nat := 33.
Definition right_inner : nat := 362.
Definition right_outer : nat := 263.
Definition history_size : nat := 5.

Definition init : state := mkstate None None None None [].

Definition set_baseline_left_aperture (v : float64) (s : state) : state :=
  mkstate (Some v) (baseline_right_aperture s) (baseline_left_width s)
    (baseline_right_width s) (history s).
Definition set_baseline_right_aperture (v : float64) (s : state) : state :=
  mkstate (baseline_left_aperture s) (Some v) (baseline_left_width s)
    (baseline_right_width s) (history s).
Definition set_baseline_left_width (v : float64) (s : state) : state :=
  mkstate (baseline_left_aperture s) (baseline_right_aperture s) (Some v)
    (baseline_right_width s) (history s).
Definition set_baseline_right_width (v : float64) (s : state) : state :=
  mkstate (baseline_left_aperture s) (baseline_right_aperture s)
    (baseline_left_width s) (Some v) (history s).
Definition set_history (h : list float64) (s : state) : state :=
  mkstate (baseline_left_aperture s) (baseline_right_aperture s)
    (baseline_left_width s) (baseline_right_width s) h.

Definition set_baseline (landmarks : landmarks) : M state unit :=
  left_upper <- index landmarks left_upper ;;
  left_lower <- index landmarks left_lower ;;
  right_upper <- index landmarks right_upper ;;
  right_lower <- index landmarks right_lower ;;
  modify (set_baseline_left_aperture (calculate_distance left_upper left_lower)) ;;;
  modify (set_baseline_right_aperture (calculate_distance right_upper right_lower)) ;;;
  left_inner <- index landmarks left_inner ;;
  left_outer <- index landmarks left_outer ;;
  right_inner <- index landmarks right_inner ;;
  right_outer <- index landmarks right_outer ;;
  modify (set_baseline_left_width (calculate_distance left_inner left_outer)) ;;;
  modify (set_baseline_right_width (calculate_distance right_inner right_outer)).

(** [aperture / width if width > 0 else 0] (the [0] only ever meets floats
    afterwards, so it is the float zero here). *)
Definition aspect_ratio (aperture width : float64) : float64 :=
  if Np.ltb (Fin 0) width then (aperture / width)%np else Fin 0.

Definition baseline_score (current_left_aperture current_right_aperture
  current_left_width current_right_width : float64) (self : state)
  : M state float64 :=
  baseline_la <- number (baseline_left_aperture self) ;;
  let left_reduction := (Fin 1.0 - current_left_aperture / baseline_la)%np in
  baseline_ra <- number (baseline_right_aperture self) ;;
  let right_reduction := (Fin 1.0 - current_right_aperture / baseline_ra)%np in
  baseline_lw <- number (baseline_left_width self) ;;
  let left_width_change := relative_change current_left_width baseline_lw in
  baseline_rw <- number (baseline_right_width self) ;;
  let right_width_change := relative_change current_right_width baseline_rw in
  ret (((left_reduction + right_reduction) * Fin 0.7 +
        (left_width_change + right_width_change) * Fin 0.3) / Fin 2.0)%np.

Definition absolute_score (left_aspect_ratio right_aspect_ratio : float64)
  : float64 :=
  let avg_aspect_ratio := ((left_aspect_ratio + right_aspect_ratio) / Fin 2.0)%np in
  let normal_ratio := Fin 0.30 in
  let squint_factor :=
    (py_max (Fin 0) (normal_ratio - avg_aspect_ratio) / normal_ratio)%np in
  squint_factor.

Definition analyze (landmarks : landmarks) (use_baseline : bool)
  : M state score_record :=
  left_upper <- index landmarks left_upper ;;
  left_lower <- index landmarks left_lower ;;
  right_upper <- index landmarks right_upper ;;
  right_lower <- index landmarks right_lower ;;
  let current_left_aperture := calculate_distance left_upper left_lower in
  let current_right_aperture := calculate_distance right_upper right_lower in
  left_inner <- index landmarks left_inner ;;
  left_outer <- index landmarks left_outer ;;
  right_inner <- index landmarks right_inner ;;
  right_outer <- index landmarks right_outer ;;
  let current_left_width := calculate_distance left_inner left_outer in
  let current_right_width := calculate_distance right_inner right_outer in
  let left_aspect_ratio := aspect_ratio current_left_aperture current_left_width in
  let right_aspect_ratio := aspect_ratio current_right_aperture current_right_width in
  self <- get ;;
  squint_score <-
    (if use_baseline && is_not_None (baseline_left_aperture self)
     then baseline_score current_left_aperture current_right_aperture
            current_left_width current_right_width self
     else ret (absolute_score left_aspect_ratio right_aspect_ratio)) ;;
  let squint_score := Np.clip (squint_score * Fin 3.5)%np (Fin 0.0) (Fin 1.0) in
  let squint_percentage := (squint_score * Fin 100)%np in
  modify (fun self =>
            set_history (append_history history_size (history self) squint_score)
              self) ;;;
  self <- get ;;
  let smoothed_score := smooth (history self) squint_score in
  let smoothed_percentage := (smoothed_score * Fin 100)%np in
  ret (mkrecord squint_score squint_percentage smoothed_score
         smoothed_percentage current_left_aperture current_right_aperture
         left_aspect_ratio right_aspect_ratio
         (is_not_None (baseline_left_aperture self))).

Definition reset_history : M state unit := modify (set_history []).

Definition get_description (score : float64) : String.string :=
  let percentage := (score * Fin 100)%np in
  if Np.ltb percentage (Fin 20) then "eyes relaxed, normal aperture"%string
  else if Np.ltb percentage (Fin 40) then "slight eye narrowing"%string
  else if Np.ltb percentage (Fin 60) then "moderate squinting"%string
  else if Np.ltb percentage (Fin 80) then "significant squinting (narrowed eyes)"%string
  else "severe squinting (eyes tightly narrowed)"%string.

End EyeAnalyzer.

(* ================================================================== *)
(** * [pain_analyzers/grimace_analyzer.py] *)
(* ================================================================== *)

Module GrimaceAnalyzer.

Record state : Type := mkstate {
  baseline_corner_distance : option float64;
  baseline_vertical_distance : option float64;
  baseline_lip_distance : option float64;
  history : list float64
}.

Record score_record : Type := mkrecord {
  grimace_score : float64;
  grimace_percentage : float64;
  smoothed_score : float64;
  smoothed_percentage : float64;
  corner_distance : float64;
  vertical_distance : float64;
  corner_depression : float64;
  has_baseline : bool
}.

Definition mouth_corners : nat * nat := (61, 291)%nat.
Definition mouth_center : nat * nat := (0, 17)%nat.
Definition upper_lip : nat * nat := (13, 14)%nat.
Definition lower_lip : nat * nat := (78, 308)%nat.
Definition history_size : nat := 5.

Definition init : state := mkstate None None None [].

Definition set_baseline_corner_distance (v : float64) (s : state) : state :=
  mkstate (Some v) (baseline_vertical_distance s) (baseline_lip_distance s) (history s).
Definition set_baseline_vertical_distance (v : float64) (s : state) : state :=
  mkstate (baseline_corner_distance s) (Some v) (baseline_lip_distance s) (history s).
Definition set_baseline_lip_distance (v : float64) (s : state) : state :=
  mkstate (baseline_corner_distance s) (baseline_vertical_distance s) (Some v) (history s).
Definition set_history (h : list float64) (s : state) : state :=
  mkstate (baseline_corner_distance s) (baseline_vertical_distance s)
    (baseline_lip_distance s) h.

Definition set_baseline (landmarks : landmarks) : M state unit :=
  left_corner <- index landmarks (fst mouth_corners) ;;
  right_corner <- index landmarks (snd mouth_corners) ;;
  top_center <- index landmarks (fst mouth_center) ;;
  bottom_center <- index landmarks (snd mouth_center) ;;
  modify (set_baseline_corner_distance (calculate_distance left_corner right_corner)) ;;;
  modify (set_baseline_vertical_distance (calculate_distance top_center bottom_center)) ;;;
  upper <- index landmarks (fst upper_lip) ;;
  lower <- index landmarks (fst lower_lip) ;;
  modify (set_baseline_lip_distance (calculate_distance upper lower)).

Definition baseline_score (current_corner_distance current_vertical_distance
  current_lip_distance : float64) (self : state) : M state float64 :=
  baseline_corner <- number (baseline_corner_distance self) ;;
  let corner_change := relative_change current_corner_distance baseline_corner in
  baseline_vertical <- number (baseline_vertical_distance self) ;;
  let vertical_change := relative_change current_vertical_distance baseline_vertical in
  baseline_lip <- number (baseline_lip_distance self) ;;
  let lip_change := relative_change current_lip_distance baseline_lip in
  ret (corner_change * Fin 0.4 + vertical_change * Fin 0.3 + lip_change * Fin 0.3)%np.

Definition absolute_score (current_corner_distance current_vertical_distance
  corner_depression : float64) : float64 :=
  let corner_factor := (Fin 1.0 - py_min (current_corner_distance * Fin 5) (Fin 1.0))%np in
  let vertical_factor := (Fin 1.0 - py_min (current_vertical_distance * Fin 20) (Fin 1.0))%np in
  let depression_factor := py_min (corner_depression * Fin 50)%np (Fin 1.0) in
  (corner_factor * Fin 0.35 + vertical_factor * Fin 0.35 + depression_factor * Fin 0.30)%np.

Definition analyze (landmarks : landmarks) (use_baseline : bool)
  : M state score_record :=
  left_corner <- index landmarks (fst mouth_corners) ;;
  right_corner <- index landmarks (snd mouth_corners) ;;
  top_center <- index landmarks (fst mouth_center) ;;
  bottom_center <- index landmarks (snd mouth_center) ;;
  let current_corner_distance := calculate_distance left_corner right_corner in
  let current_vertical_distance := calculate_distance top_center bottom_center in
  let corner_midpoint_y := ((Fin (py left_corner) + Fin (py right_corner)) / Fin 2)%np in
  let center_y := ((Fin (py top_center) + Fin (py bottom_center)) / Fin 2)%np in
  let corner_depression := py_max (Fin 0) (corner_midpoint_y - center_y)%np in
  upper <- index landmarks (fst upper_lip) ;;
  lower <- index landmarks (fst lower_lip) ;;
  let current_lip_distance := calculate_distance upper lower in
  self <- get ;;
  grimace_score <-
    (if use_baseline && is_not_None (baseline_corner_distance self)
     then baseline_score current_corner_distance current_vertical_distance
            current_lip_distance self
     else ret (absolute_score current_corner_distance current_vertical_distance
                 corner_depression)) ;;
  let grimace_score := Np.clip (grimace_score * Fin 3.0)%np (Fin 0.0) (Fin 1.0) in
  let grimace_percentage := (grimace_score * Fin 100)%np in
  modify (fun self =>
            set_history (append_history history_size (history self) grimace_score)
              self) ;;;
  self <- get ;;
  let smoothed_score := smooth (history self) grimace_score in
  let smoothed_percentage := (smoothed_score * Fin 100)%np in
  ret (mkrecord grimace_score grimace_percentage smoothed_score
         smoothed_percentage current_corner_distance current_vertical_distance
         corner_depression (is_not_None (baseline_corner_distance self))).

Definition reset_history : M state unit := modify (set_history []).

Definition get_description (score : float64) : String.string :=
  let percentage := (score * Fin 100)%np in
  if Np.ltb percentage (Fin 20) then "relaxed expression"%string
  else if Np.ltb percentage (Fin 40) then "slight mouth tension"%string
  else if Np.ltb percentage (Fin 60) then "moderate grimacing"%string
  else if Np.ltb percentage (Fin 80) then "significant grimacing (corners depressed)"%string
  else "severe grimacing (tight lips, corner tension)"%string.

End GrimaceAnalyzer.

(* ================================================================== *)
(** * [pain_analyzers/jaw_analyzer.py] *)
(* ================================================================== *)

Module JawAnalyzer.

Record state : Type := mkstate {
  baseline_left_distance : option float64;
  baseline_right_distance : option float64;
  baseline_jaw_width : option float64;
  baseline_jaw_angle : option float64;
  history : list float64
}.

Record score_record : Type := mkrecord {
  clench_score : float64;
  clench_percentage : float64;
  smoothed_score : float64;
  smoothed_percentage : float64;
  jaw_width : float64;
  jaw_angle : float64;
  left_distance : float64;
  right_distance : float64;
  has_baseline : bool
}.

Definition jaw_left : nat * nat := (234, 93)%nat.
Definition jaw_right : nat * nat := (454, 323)%nat.
Definition jaw_bottom : nat := 152.
Definition jaw_left_angle : nat := 172.
Definition jaw_right_angle : nat := 397.
Definition history_size : nat := 5.

Definition init : state := mkstate None None None None [].

Definition set_baseline_left_distance (v : float64) (s : state) : state :=
  mkstate (Some v) (baseline_right_distance s) (baseline_jaw_width s)
    (baseline_jaw_angle s) (history s).
Definition set_baseline_right_distance (v : float64) (s : state) : state :=
  mkstate (baseline_left_distance s) (Some v) (baseline_jaw_width s)
    (baseline_jaw_angle s) (history s).
Definition set_baseline_jaw_width (v : float64) (s : state) : state :=
  mkstate (baseline_left_distance s) (baseline_right_distance s) (Some v)
    (baseline_jaw_angle s) (history s).
Definition set_baseline_jaw_angle (v : float64) (s : state) : state :=
  mkstate (baseline_left_distance s) (baseline_right_distance s)
    (baseline_jaw_width s) (Some v) (history s).
Definition set_history (h : list float64) (s : state) : state :=
  mkstate (baseline_left_distance s) (baseline_right_distance s)
    (baseline_jaw_width s) (baseline_jaw_angle s) h.

Definition set_baseline (landmarks : landmarks) : M state unit :=
  left_points <- index2 landmarks jaw_left ;;
  right_points <- index2 landmarks jaw_right ;;
  jaw_bottom <- index landmarks jaw_bottom ;;
  modify (set_baseline_left_distance
            (calculate_distance (fst left_points) (snd left_points))) ;;;
  modify (set_baseline_right_distance
            (calculate_distance (fst right_points) (snd right_points))) ;;;
  left_angle <- index landmarks jaw_left_angle ;;
  right_angle <- index landmarks jaw_right_angle ;;
  modify (set_baseline_jaw_width (calculate_distance left_angle right_angle)) ;;;
  modify (set_baseline_jaw_angle (calculate_angle left_angle jaw_bottom right_angle)).

Definition baseline_score (current_left_distance current_right_distance
  current_jaw_width current_jaw_angle : float64) (self : state)
  : M state float64 :=
  baseline_left <- number (baseline_left_distance self) ;;
  let left_change := relative_change current_left_distance baseline_left in
  baseline_right <- number (baseline_right_distance self) ;;
  let right_change := relative_change current_right_distance baseline_right in
  baseline_width <- number (baseline_jaw_width self) ;;
  let width_change := relative_change current_jaw_width baseline_width in
  baseline_angle <- number (baseline_jaw_angle self) ;;
  let angle_change := relative_change current_jaw_angle baseline_angle in
  ret (left_change * Fin 0.25 + right_change * Fin 0.25 +
       width_change * Fin 0.25 + angle_change * Fin 0.25)%np.

Definition absolute_score (current_left_distance current_right_distance
  current_jaw_width current_jaw_angle : float64) : float64 :=
  let avg_distance := ((current_left_distance + current_right_distance) / Fin 2.0)%np in
  let distance_factor := (Fin 1.0 - py_min (avg_distance * Fin 8) (Fin 1.0))%np in
  let width_factor := (py_min (current_jaw_width * Fin 3) (Fin 1.0) - Fin 0.5)%np in
  let width_factor := py_max (Fin 0) width_factor in
  let angle_factor := (Fin 1.0 - current_jaw_angle / Fin 180.0)%np in
  (distance_factor * Fin 0.4 + width_factor * Fin 0.3 + angle_factor * Fin 0.3)%np.

Definition analyze (landmarks : landmarks) (use_baseline : bool)
  : M state score_record :=
  left_points <- index2 landmarks jaw_left ;;
  right_points <- index2 landmarks jaw_right ;;
  jaw_bottom <- index landmarks jaw_bottom ;;
  let current_left_distance :=
    calculate_distance (fst left_points) (snd left_points) in
  let current_right_distance :=
    calculate_distance (fst right_points) (snd right_points) in
  left_angle <- index landmarks jaw_left_angle ;;
  right_angle <- index landmarks jaw_right_angle ;;
  let current_jaw_width := calculate_distance left_angle right_angle in
  let current_jaw_angle := calculate_angle left_angle jaw_bottom right_angle in
  left_cheek <- index landmarks 234 ;;
  right_cheek <- index landmarks 454 ;;
  let left_tension_distance := calculate_distance left_angle left_cheek in
  let right_tension_distance := calculate_distance right_angle right_cheek in
  self <- get ;;
  clench_score <-
    (if use_baseline && is_not_None (baseline_left_distance self)
     then baseline_score current_left_distance current_right_distance
            current_jaw_width current_jaw_angle self
     else ret (absolute_score current_left_distance current_right_distance
                 current_jaw_width current_jaw_angle)) ;;
  let clench_score := Np.clip (clench_score * Fin 3.5)%np (Fin 0.0) (Fin 1.0) in
  let clench_percentage := (clench_score * Fin 100)%np in
  modify (fun self =>
            set_history (append_history history_size (history self) clench_score)
              self) ;;;
  self <- get ;;
  let smoothed_score := smooth (history self) clench_score in
  let smoothed_percentage := (smoothed_score * Fin 100)%np in
  ret (mkrecord clench_score clench_percentage smoothed_score
         smoothed_percentage current_jaw_width current_jaw_angle
         current_left_distance current_right_distance
         (is_not_None (baseline_left_distance self))).

Definition reset_history : M state unit := modify (set_history []).

Definition get_description (score : float64) : String.string :=
  let percentage := (score * Fin 100)%np in
  if Np.ltb percentage (Fin 20) then "jaw relaxed"%string
  else if Np.ltb percentage (Fin 40) then "slight jaw tension"%string
  else if Np.ltb percentage (Fin 60) then "moderate jaw clenching"%string
  else if Np.ltb percentage (Fin 80) then "significant jaw tension (elevated muscle tension)"%string
  else "severe jaw clenching (tight jaw muscles)"%string.

End JawAnalyzer.

(* ================================================================== *)
(** * [pain_analyzers/nasolabial_analyzer.py] *)
(* ================================================================== *)

Module NasolabialAnalyzer.

Record state : Type := mkstate {
  baseline_left_depth : option pynum;
  baseline_right_depth : option pynum;
  baseline_fold_angle_left : option float64;
  baseline_fold_angle_right : option float64;
  history : list float64
}.

Record score_record : Type := mkrecord {
  strain_score : float64;
  strain_percentage : float64;
  smoothed_score : float64;
  smoothed_percentage : float64;
  left_depth : pynum;
  right_depth : pynum;
  left_angle : float64;
  right_angle : float64;
  has_baseline : bool
}.

Definition nasolabial_left : nat := 48.
Definition nasolabial_right : nat := 278.
Definition nose_bottom_left : nat := 98.
Definition nose_bottom_right : nat := 327.
Definition mouth_corner_left : nat := 61.
Definition mouth_corner_right : nat := 291.
Definition cheek_left : nat := 205.
Definition cheek_right : nat := 425.
Definition history_size : nat := 5.

Definition init : state := mkstate None None None None [].

Definition set_baseline_left_depth (v : pynum) (s : state) : state :=
  mkstate (Some v) (baseline_right_depth s) (baseline_fold_angle_left s)
    (baseline_fold_angle_right s) (history s).
Definition set_baseline_right_depth (v : pynum) (s : state) : state :=
  mkstate (baseline_left_depth s) (Some v) (baseline_fold_angle_left s)
    (baseline_fold_angle_right s) (history s).
Definition set_baseline_fold_angle_left (v : float64) (s : state) : state :=
  mkstate (baseline_left_depth s) (baseline_right_depth s) (Some v)
    (baseline_fold_angle_right s) (history s).
Definition set_baseline_fold_angle_right (v : float64) (s : state) : state :=
  mkstate (baseline_left_depth s) (baseline_right_depth s)
    (baseline_fold_angle_left s) (Some v) (history s).
Definition set_history (h : list float64) (s : state) : state :=
  mkstate (baseline_left_depth s) (baseline_right_depth s)
    (baseline_fold_angle_left s) (baseline_fold_angle_right s) h.

(** Perpendicular distance from the fold point to the line through the nose
    and mouth points; the guard returns the [int] zero. *)
Definition _calculate_fold_depth (fold_point nose_point mouth_point : point)
  : pynum :=
  let line_vec := vsub mouth_point nose_point in
  let point_vec := vsub fold_point nose_point in
  let line_len := norm line_vec in
  if Reqb line_len 0 then PyInt 0
  else
    let line_unitvec := vdiv line_vec line_len in
    let projection := dot point_vec line_unitvec in
    let closest_point := vadd nose_point (vscale projection line_unitvec) in
    let depth := norm (vsub fold_point closest_point) in
    PyFloat (Fin depth).

Definition set_baseline (landmarks : landmarks) : M state unit :=
  left_fold <- index landmarks nasolabial_left ;;
  nose_left <- index landmarks nose_bottom_left ;;
  mouth_left <- index landmarks mouth_corner_left ;;
  cheek_left <- index landmarks cheek_left ;;
  modify (set_baseline_left_depth (_calculate_fold_depth left_fold nose_left mouth_left)) ;;;
  modify (set_baseline_fold_angle_left (calculate_angle nose_left left_fold mouth_left)) ;;;
  right_fold <- index landmarks nasolabial_right ;;
  nose_right <- index landmarks nose_bottom_right ;;
  mouth_right <- index landmarks mouth_corner_right ;;
  cheek_right <- index landmarks cheek_right ;;
  modify (set_baseline_right_depth (_calculate_fold_depth right_fold nose_right mouth_right)) ;;;
  modify (set_baseline_fold_angle_right (calculate_angle nose_right right_fold mouth_right)).

(** [abs(current - baseline) / baseline] on depths: two [int]s divide as
    Python integers (a zero divisor raises); a NumPy operand makes the whole
    expression a NumPy one. *)
Definition depth_change (current : pynum) (baseline : option pynum)
  : M state float64 :=
  match baseline with
  | None => lift (Raise TypeError)
  | Some baseline =>
      match current, baseline with
      | PyInt c, PyInt b =>
          if (b =? 0)%Z then lift (Raise ZeroDivisionError)
          else ret (Fin (IZR (Z.abs (c - b)) / IZR b))
      | _, _ => ret (relative_change (to_float current) (to_float baseline))
      end
  end.

Definition baseline_score (current_left_depth current_right_depth : pynum)
  (current_fold_angle_left current_fold_angle_right : float64) (self : state)
  : M state float64 :=
  left_depth_change <- depth_change current_left_depth (baseline_left_depth self) ;;
  right_depth_change <- depth_change current_right_depth (baseline_right_depth self) ;;
  baseline_al <- number (baseline_fold_angle_left self) ;;
  let left_angle_change := relative_change current_fold_angle_left baseline_al in
  baseline_ar <- number (baseline_fold_angle_right self) ;;
  let right_angle_change := relative_change current_fold_angle_right baseline_ar in
  ret (((left_depth_change + right_depth_change) * Fin 0.6 +
        (left_angle_change + right_angle_change) * Fin 0.4) / Fin 2.0)%np.

Definition absolute_score (current_left_depth current_right_depth : pynum)
  (current_fold_angle_left current_fold_angle_right : float64) : float64 :=
  let avg_depth :=
    ((to_float current_left_depth + to_float current_right_depth) / Fin 2.0)%np in
  let depth_factor := py_min (avg_depth * Fin 30)%np (Fin 1.0) in
  let avg_angle :=
    ((current_fold_angle_left + current_fold_angle_right) / Fin 2.0)%np in
  let angle_factor := (Fin 1.0 - avg_angle / Fin 180.0)%np in
  (depth_factor * Fin 0.6 + angle_factor * Fin 0.4)%np.

Definition analyze (landmarks : landmarks) (use_baseline : bool)
  : M state score_record :=
  left_fold <- index landmarks nasolabial_left ;;
  nose_left <- index landmarks nose_bottom_left ;;
  mouth_left <- index landmarks mouth_corner_left ;;
  cheek_left <- index landmarks cheek_left ;;
  let current_left_depth := _calculate_fold_depth left_fold nose_left mouth_left in
  let current_fold_angle_left := calculate_angle nose_left left_fold mouth_left in
  right_fold <- index landmarks nasolabial_right ;;
  nose_right <- index landmarks nose_bottom_right ;;
  mouth_right <- index landmarks mouth_corner_right ;;
  cheek_right <- index landmarks cheek_right ;;
  let current_right_depth := _calculate_fold_depth right_fold nose_right mouth_right in
  let current_fold_angle_right := calculate_angle nose_right right_fold mouth_right in
  self <- get ;;
  strain_score <-
    (if use_baseline && is_not_None (baseline_left_depth self)
     then baseline_score current_left_depth current_right_depth
            current_fold_angle_left current_fold_angle_right self
     else ret (absolute_score current_left_depth current_right_depth
                 current_fold_angle_left current_fold_angle_right)) ;;
  let strain_score := Np.clip (strain_score * Fin 2.5)%np (Fin 0.0) (Fin 1.0) in
  let strain_percentage := (strain_score * Fin 100)%np in
  modify (fun self =>
            set_history (append_history history_size (history self) strain_score)
              self) ;;;
  self <- get ;;
  let smoothed_score := smooth (history self) strain_score in
  let smoothed_percentage := (smoothed_score * Fin 100)%np in
  ret (mkrecord strain_score strain_percentage smoothed_score
         smoothed_percentage current_left_depth current_right_depth
         current_fold_angle_left current_fold_angle_right
         (is_not_None (baseline_left_depth self))).

Definition reset_history : M state unit := modify (set_history []).

Definition get_description (score : float64) : String.string :=
  let percentage := (score * Fin 100)%np in
  if Np.ltb percentage (Fin 20) then "minimal facial strain"%string
  else if Np.ltb percentage (Fin 40) then "slight nasolabial tension"%string
  else if Np.ltb percentage (Fin 60) then "moderate facial strain"%string
  else if Np.ltb percentage (Fin 80) then "significant strain (deepened folds)"%string
  else "severe facial strain (pronounced fold deepening)"%string.

End NasolabialAnalyzer.

(** [np.mean] of a one-dimensional array: NaN on an empty one. *)
Definition np_mean (a : list float64) : float64 :=
  (Np.sum a / Fin (INR (length a)))%np.

(* ================================================================== *)
(** * [agents/facial_agent.py]: the aggregator *)
(* ================================================================== *)

Module FacialAgent.

(** [self.analyzers], in the order of the dictionary. *)
Record state : Type := mkstate {
  brow : BrowAnalyzer.state;
  eye : EyeAnalyzer.state;
  grimace : GrimaceAnalyzer.state;
  jaw : JawAnalyzer.state;
  nasolabial : NasolabialAnalyzer.state
}.

Record indicators : Type := mkindicators {
  ind_brow : float64;
  ind_eye : float64;
  ind_grimace : float64;
  ind_jaw : float64;
  ind_nasolabial : float64
}.

Record analysis : Type := mkanalysis {
  pain_score : float64;
  stress_score : float64;
  anxiety_score : float64;
  the_indicators : indicators
}.

Definition init : state :=
  mkstate BrowAnalyzer.init EyeAnalyzer.init GrimaceAnalyzer.init
    JawAnalyzer.init NasolabialAnalyzer.init.

(** A method call on one analyzer of the agent. *)
Definition on_brow {A} (m : M BrowAnalyzer.state A) : M state A :=
  fun s => let (r, a) := m (brow s) in
           (r, mkstate a (eye s) (grimace s) (jaw s) (nasolabial s)).
Definition on_eye {A} (m : M EyeAnalyzer.state A) : M state A :=
  fun s => let (r, a) := m (eye s) in
           (r, mkstate (brow s) a (grimace s) (jaw s) (nasolabial s)).
Definition on_grimace {A} (m : M GrimaceAnalyzer.state A) : M state A :=
  fun s => let (r, a) := m (grimace s) in
           (r, mkstate (brow s) (eye s) a (jaw s) (nasolabial s)).
Definition on_jaw {A} (m : M JawAnalyzer.state A) : M state A :=
  fun s => let (r, a) := m (jaw s) in
           (r, mkstate (brow s) (eye s) (grimace s) a (nasolabial s)).
Definition on_nasolabial {A} (m : M NasolabialAnalyzer.state A) : M state A :=
  fun s => let (r, a) := m (nasolabial s) in
           (r, mkstate (brow s) (eye s) (grimace s) (jaw s) a).

Definition _set_baseline (landmarks : landmarks) : M state unit :=
  on_brow (BrowAnalyzer.set_baseline landmarks) ;;;
  on_eye (EyeAnalyzer.set_baseline landmarks) ;;;
  on_grimace (GrimaceAnalyzer.set_baseline landmarks) ;;;
  on_jaw (JawAnalyzer.set_baseline landmarks) ;;;
  on_nasolabial (NasolabialAnalyzer.set_baseline landmarks).

(** [sum(score * weight for name in weights) * 10], the sum starting at 0
    and running over brow, grimace, eye, jaw, nasolabial. *)
Definition weighted_pain (brow grimace eye jaw nasolabial : float64) : float64 :=
  ((Fin 0 + brow * Fin 0.25 + grimace * Fin 0.30 + eye * Fin 0.20 +
    jaw * Fin 0.20 + nasolabial * Fin 0.05) * Fin 10)%np.

Definition weighted_stress (brow eye jaw : float64) : float64 :=
  ((eye * Fin 0.50 + brow * Fin 0.30 + jaw * Fin 0.20) * Fin 10)%np.

Definition weighted_anxiety (brow grimace eye jaw : float64) : float64 :=
  ((eye * Fin 0.30 + brow * Fin 0.30 + jaw * Fin 0.25 + grimace * Fin 0.15)
   * Fin 10)%np.

Definition _analyze_pain (landmarks : landmarks) : M state analysis :=
  r_brow <- on_brow (BrowAnalyzer.analyze landmarks true) ;;
  r_eye <- on_eye (EyeAnalyzer.analyze landmarks true) ;;
  r_grimace <- on_grimace (GrimaceAnalyzer.analyze landmarks true) ;;
  r_jaw <- on_jaw (JawAnalyzer.analyze landmarks true) ;;
  r_nasolabial <- on_nasolabial (NasolabialAnalyzer.analyze landmarks true) ;;
  let s_brow := BrowAnalyzer.smoothed_score r_brow in
  let s_eye := EyeAnalyzer.smoothed_score r_eye in
  let s_grimace := GrimaceAnalyzer.smoothed_score r_grimace in
  let s_jaw := JawAnalyzer.smoothed_score r_jaw in
  let s_nasolabial := NasolabialAnalyzer.smoothed_score r_nasolabial in
  ret (mkanalysis
         (weighted_pain s_brow s_grimace s_eye s_jaw s_nasolabial)
         (weighted_stress s_brow s_eye s_jaw)
         (weighted_anxiety s_brow s_grimace s_eye s_jaw)
         (mkindicators
            (BrowAnalyzer.smoothed_percentage r_brow)
            (EyeAnalyzer.smoothed_percentage r_eye)
            (GrimaceAnalyzer.smoothed_percentage r_grimace)
            (JawAnalyzer.smoothed_percentage r_jaw)
            (NasolabialAnalyzer.smoothed_percentage r_nasolabial))).

(** [self.face_mesh.process] is the detector, outside this model: a frame
    is given by its shape and the faces the detector reports, each a list
    of landmarks relative to the frame. *)
Definition _extract_landmarks (face_landmarks : list point)
  (image_shape : nat * nat) : landmarks :=
  let (h, w) := image_shape in
  map (fun lm => mkpoint (px lm * INR w) (py lm * INR h) (pz lm * INR w))
      face_landmarks.

(** The attributes [__init__] sets besides the analyzers. *)
Record session : Type := mksession {
  analyzers : state;
  baseline_set : bool;
  frame_count : nat;
  pain_scores : list float64
}.

(** When the import of the analyzers failed, [__init__] returns before
    setting any of them; [reset] then creates the three counters before it
    fails on [self.analyzers]. *)
Inductive agent : Type :=
| Unavailable (counters_set : bool)
| Available (s : session).

Definition new_agent (face_feature_available : bool) : agent :=
  if face_feature_available
  then Available (mksession init false 0 [])
  else Unavailable false.

(** The keys of the result that the scoring decides (the annotated frame
    and the copy of the detector's landmarks are left out). *)
Inductive frame_result : Type :=
| Failure (error : String.string)
| Success (a : analysis).

Definition on_analyzers {A} (m : M state A) : M session A :=
  fun s => let (r, a) := m (analyzers s) in
           (r, mksession a (baseline_set s) (frame_count s) (pain_scores s)).

Definition process_session (image_shape : nat * nat)
  (multi_face_landmarks : list (list point)) : M session frame_result :=
  match multi_face_landmarks with
  | [] => ret (Failure "No face detected"%string)
  | face :: _ =>
      let landmarks := _extract_landmarks face image_shape in
      self <- get ;;
      (if negb (baseline_set self) && (frame_count self =? 0)%nat
       then on_analyzers (_set_baseline landmarks) ;;;
            modify (fun self => mksession (analyzers self) true (frame_count self)
                                  (pain_scores self))
       else ret tt) ;;;
      analysis <- on_analyzers (_analyze_pain landmarks) ;;
      modify (fun self => mksession (analyzers self) (baseline_set self)
                            (frame_count self) (pain_scores self ++ [pain_score analysis])) ;;;
      modify (fun self => mksession (analyzers self) (baseline_set self)
                            (frame_count self + 1) (pain_scores self)) ;;;
      ret (Success analysis)
  end.

Definition process_frame (image_shape : nat * nat)
  (multi_face_landmarks : list (list point)) : M agent frame_result :=
  fun a =>
    match a with
    | Unavailable c => (Ok (Failure "Facial analysis not available"%string), Unavailable c)
    | Available s =>
        let (r, s') := process_session image_shape multi_face_landmarks s in
        (r, Available s')
    end.

Record average_scores : Type := mkaverages {
  avg_pain_score : float64;
  avg_stress_score : float64;
  avg_anxiety_score : float64;
  total_frames : nat
}.

(** A method that reads an attribute [__init__] never set. *)
Inductive attribute (A : Type) : Type :=
| Has (a : A)
| AttributeError.
Arguments Has {A} a.
Arguments AttributeError {A}.

(** The body of [get_average_scores] once [self.pain_scores] is read. *)
Definition average_of (pain_scores : list float64) (frame_count : nat)
  : average_scores :=
  match pain_scores with
  | [] => mkaverages (Fin 0.0) (Fin 0.0) (Fin 0.0) 0
  | _ => mkaverages (np_mean pain_scores) (np_mean pain_scores)
           (np_mean pain_scores) frame_count
  end.

Definition get_average_scores (a : agent) : attribute average_scores :=
  match a with
  | Unavailable false => AttributeError
  | Unavailable true => Has (average_of [] 0)
  | Available s => Has (average_of (pain_scores s) (frame_count s))
  end.

Definition reset_analyzers : M state unit :=
  on_brow BrowAnalyzer.reset_history ;;;
  on_eye EyeAnalyzer.reset_history ;;;
  on_grimace GrimaceAnalyzer.reset_history ;;;
  on_jaw JawAnalyzer.reset_history ;;;
  on_nasolabial NasolabialAnalyzer.reset_history.

Definition reset (a : agent) : attribute unit * agent :=
  match a with
  | Unavailable _ => (AttributeError, Unavailable true)
  | Available s =>
      (Has tt, Available (mksession (snd (reset_analyzers (analyzers s))) false 0 []))
  end.

End FacialAgent.


(* ================================================================== *)
(** * More of [utils.py] *)
(* ================================================================== *)

(** A row of a float array, whose entries may be special values. *)
Record row : Type := mkrow { rx : float64; ry : float64; rz : float64 }.

Definition to_row (p : point) : row := mkrow (Fin (px p)) (Fin (py p)) (Fin (pz p)).

(** [image_shape] is [(height, width)], two Python integers; the columns of
    a float array are divided in place. *)
Definition normalize_landmarks (landmarks : list row) (image_shape : Z * Z)
  : list row :=
  let (height, width) := image_shape in
  map (fun p => mkrow (rx p / Fin (IZR width))%np (ry p / Fin (IZR height))%np (rz p))
      landmarks.

Definition denormalize_landmarks (landmarks : list row) (image_shape : Z * Z)
  : list row :=
  let (height, width) := image_shape in
  map (fun p => mkrow (rx p * Fin (IZR width))%np (ry p * Fin (IZR height))%np (rz p))
      landmarks.

(** [np.mean(points, axis=0)] of an array of three columns. *)
Definition calculate_center (points : list row) : row :=
  mkrow (np_mean (map rx points)) (np_mean (map ry points))
    (np_mean (map rz points)).

(** Python's [/] on two floats: a zero divisor raises. *)
Definition py_truediv (a b : float64) : result float64 :=
  match b with
  | Fin y => if Reqb y 0 then Raise ZeroDivisionError else Ok (a / b)%np
  | _ => Ok (a / b)%np
  end.

(** The arguments are Python floats, as annotated. *)
Definition calculate_percentage (value min_val max_val : float64)
  : result float64 :=
  match py_truediv (value - min_val)%np (max_val - min_val)%np with
  | Ok normalized => Ok (Np.clip (normalized * Fin 100)%np (Fin 0) (Fin 100))
  | Raise e => Raise e
  end.

(** An index of a Python slice on a list of [len] elements: a negative one
    counts from the end, and both kinds are clamped to the list. *)
Definition slice_index (len : nat) (k : Z) : nat :=
  Z.to_nat (if (k <? 0)%Z then Z.max 0 (k + Z.of_nat len)
            else Z.min k (Z.of_nat len)).

(** [l[start:stop]]. *)
Definition py_slice {A} (l : list A) (start stop : Z) : list A :=
  let a := slice_index (length l) start in
  let b := slice_index (length l) stop in
  firstn (b - a) (skipn a l).

Definition smooth_values (values : list float64) (window_size : Z)
  : list float64 :=
  if (Z.of_nat (length values) <? window_size)%Z then values
  else
    map (fun i : nat =>
           let start := Z.max 0 (Z.of_nat i - window_size / 2)%Z in
           let stop := Z.min (Z.of_nat (length values))
                         (Z.of_nat i + window_size / 2 + 1)%Z in
           np_mean (py_slice values start stop))
        (seq 0 (length values)).

(** A dictionary with string keys, as the list of its items. *)
Definition dict (V : Type) : Type := list (String.string * V).

Fixpoint dict_lookup {V} (d : dict V) (key : String.string) : option V :=
  match d with
  | [] => None
  | (k, v) :: d' => if String.eqb k key then Some v else dict_lookup d' key
  end.

(** [d[key]]. *)
Inductive subscript (A : Type) : Type :=
| Found (a : A)
| KeyError (key : String.string).
Arguments Found {A} a.
Arguments KeyError {A} key.

(** A BGR colour. *)
Definition color : Type := (nat * nat * nat)%type.

Definition get_color_for_score (score : float64) (thresholds : dict float64)
  : subscript color :=
  match dict_lookup thresholds "low"%string with
  | None => KeyError "low"%string
  | Some low =>
      if Np.ltb score low then Found (0, 255, 0)%nat
      else
        match dict_lookup thresholds "medium"%string with
        | None => KeyError "medium"%string
        | Some medium =>
            if Np.ltb score medium then Found (0, 255, 255)%nat
            else Found (0, 0, 255)%nat
        end
  end.

(* ================================================================== *)
(** * [agents/multimodal_scorer.py] *)
(* ================================================================== *)

Module MultimodalHealthScorer.

(** A value of the dictionaries the scorer reads: a number, or a string
    (the voice data carries an emotion and an explanation). *)
Inductive pyvalue : Type :=
| Num (x : float64)
| Str (s : String.string).

(** A value in arithmetic with a float: a string raises [TypeError]. *)
Definition as_number (v : pyvalue) : result float64 :=
  match v with
  | Num x => Ok x
  | Str _ => Raise TypeError
  end.

Definition rbind {A B} (r : result A) (k : A -> result B) : result B :=
  match r with
  | Ok a => k a
  | Raise e => Raise e
  end.

Notation "x <~ r ;; k" := (rbind r (fun x => k))
  (at level 61, r at next level, right associativity).

(** [d.get(key, default)], used as a number. *)
Definition get_number (d : dict pyvalue) (key : String.string)
  (default : float64) : result float64 :=
  match dict_lookup d key with
  | Some v => as_number v
  | None => Ok default
  end.

(** [if data:] on an optional dictionary: [None] and the empty dictionary
    are both false. *)
Definition truthy (data : option (dict pyvalue)) : bool :=
  match data with
  | Some (_ :: _) => true
  | _ => false
  end.

Definition items (data : option (dict pyvalue)) : dict pyvalue :=
  match data with
  | Some d => d
  | None => []
  end.

(** [a >= b]; every comparison with NaN is false. *)
Definition geb (a b : float64) : bool :=
  match a, b with
  | NaN, _ | _, NaN => false
  | _, _ => negb (Np.ltb a b)
  end.

(** The integer nearest to [x], the even one of two equally near. *)
Definition round_half_even (x : R) : Z :=
  let f := Int_part x in
  let frac := x - IZR f in
  if Rltb frac 0.5 then f
  else if Rltb 0.5 frac then (f + 1)%Z
  else if Z.even f then f else (f + 1)%Z.

(** [round(a, 2)]. *)
Definition round2 (a : float64) : float64 :=
  match a with
  | Fin x => Fin (IZR (round_half_even (x * 100)) / 100)
  | _ => a
  end.

Definition weight_physiological : R := 0.60.
Definition weight_facial : R := 0.30.
Definition weight_voice : R := 0.10.

Record physiological_contribution : Type := mkphysiological {
  health_score : float64;
  composite_risk : float64;
  physiological_weight : R
}.

Record contribution : Type := mkcontribution {
  modifier : float64;
  risk_increase : float64;
  weight : R;
  available : bool
}.

(** The result, without the three dictionaries it passes through
    ([individual_risks], [facial_indicators], [voice_indicators]). *)
Record enhanced : Type := mkenhanced {
  enhanced_health_score : float64;
  enhanced_composite_risk : float64;
  grade : String.string;
  physiological : physiological_contribution;
  facial_contribution : contribution;
  voice_contribution : contribution;
  multimodal_complete : bool;
  modalities_used : nat
}.

Definition _calculate_grade (health_score : float64) : String.string :=
  if geb health_score (Fin 90) then "A"%string
  else if geb health_score (Fin 80) then "B"%string
  else if geb health_score (Fin 70) then "C"%string
  else if geb health_score (Fin 60) then "D"%string
  else "F"%string.

Definition _count_modalities (facial voice : option (dict pyvalue)) : nat :=
  let count := 1%nat in
  let count := if truthy facial then (count + 1)%nat else count in
  let count := if truthy voice then (count + 1)%nat else count in
  count.

Definition calculate_enhanced_score (physiological_data : dict pyvalue)
  (facial_data voice_data : option (dict pyvalue)) : result enhanced :=
  base_health_score <~ get_number physiological_data "health_score"%string (Fin 50.0) ;;
  base_composite_risk <~ get_number physiological_data "composite_risk"%string (Fin 50.0) ;;
  facial_modifier <~
    (if truthy facial_data then
       pain <~ get_number (items facial_data) "avg_pain_score"%string (Fin 0) ;;
       stress <~ get_number (items facial_data) "avg_stress_score"%string (Fin 0) ;;
       anxiety <~ get_number (items facial_data) "avg_anxiety_score"%string (Fin 0) ;;
       let pain_impact := (pain * Fin (-1.0))%np in
       let stress_impact := (stress * Fin (-0.8))%np in
       let anxiety_impact := (anxiety * Fin (-0.6))%np in
       Ok ((pain_impact + stress_impact + anxiety_impact) / Fin 3.0)%np
     else Ok (Fin 0.0)) ;;
  voice_modifier <~
    (if truthy voice_data then
       voice_stress <~ get_number (items voice_data) "stress_score"%string (Fin 0) ;;
       voice_fatigue <~ get_number (items voice_data) "fatigue_score"%string (Fin 0) ;;
       voice_quality <~ get_number (items voice_data) "voice_quality"%string (Fin 0.5) ;;
       Ok ((Np.neg voice_stress * Fin 10 * Fin 0.5 +
            Np.neg voice_fatigue * Fin 10 * Fin 0.4 +
            (voice_quality * Fin 10 - Fin 5) * Fin 0.3) / Fin 3.0)%np
     else Ok (Fin 0.0)) ;;
  let enhanced_health_score :=
    (base_health_score +
     (facial_modifier * Fin weight_facial * Fin 10 +
      voice_modifier * Fin weight_voice * Fin 10))%np in
  let enhanced_health_score := Np.clip enhanced_health_score (Fin 0) (Fin 100) in
  facial_risk_increase <~
    (if truthy facial_data then
       pain <~ get_number (items facial_data) "avg_pain_score"%string (Fin 0) ;;
       stress <~ get_number (items facial_data) "avg_stress_score"%string (Fin 0) ;;
       anxiety <~ get_number (items facial_data) "avg_anxiety_score"%string (Fin 0) ;;
       let avg_facial_score := ((pain + stress + anxiety) / Fin 3.0)%np in
       Ok ((avg_facial_score / Fin 10) * Fin 15)%np
     else Ok (Fin 0)) ;;
  voice_risk_increase <~
    (if truthy voice_data then
       voice_stress <~ get_number (items voice_data) "stress_score"%string (Fin 0) ;;
       voice_fatigue <~ get_number (items voice_data) "fatigue_score"%string (Fin 0) ;;
       let avg_voice_risk := ((voice_stress + voice_fatigue) / Fin 2.0)%np in
       Ok (avg_voice_risk * Fin 10)%np
     else Ok (Fin 0)) ;;
  let enhanced_composite_risk :=
    (base_composite_risk + facial_risk_increase + voice_risk_increase)%np in
  let enhanced_composite_risk := Np.clip enhanced_composite_risk (Fin 0) (Fin 100) in
  let grade := _calculate_grade enhanced_health_score in
  Ok (mkenhanced
        (round2 enhanced_health_score)
        (round2 enhanced_composite_risk)
        grade
        (mkphysiological base_health_score base_composite_risk weight_physiological)
        (mkcontribution (round2 facial_modifier) (round2 facial_risk_increase)
           weight_facial (is_not_None facial_data))
        (mkcontribution (round2 voice_modifier) (round2 voice_risk_increase)
           weight_voice (is_not_None voice_data))
        (is_not_None facial_data && is_not_None voice_data)
        (_count_modalities facial_data voice_data)).

(** The dictionary [FacialAgent.get_average_scores] returns. *)
Definition facial_data_of (a : FacialAgent.average_scores) : dict pyvalue :=
  [ ("avg_pain_score"%string, Num (FacialAgent.avg_pain_score a));
    ("avg_stress_score"%string, Num (FacialAgent.avg_stress_score a));
    ("avg_anxiety_score"%string, Num (FacialAgent.avg_anxiety_score a));
    ("total_frames"%string, Num (Fin (INR (FacialAgent.total_frames a)))) ].

End MultimodalHealthScorer.
(* ================================================================== *)
(** * Predicates of the statements *)
(* ================================================================== *)


Definition finite (a : float64) : Prop := exists x, a = Fin x.

(** A finite value other than zero. *)
Definition nonzero (a : float64) : Prop := exists x, a = Fin x /\ x <> 0.


(** The reference number of landmarks. *)
Definition N : nat := 468.

(** The sum of a list of reals. *)
Definition Rsum (l : list R) : R := fold_right Rplus 0 l.

(** The recency weight of sample [i] (0 is the oldest) among [n] samples:
    linear from 0.5 to 1.0. *)
Definition recency_weight (n i : nat) : R := 0.5 + INR i * (0.5 / INR (n - 1)).

(** The linearly recency-weighted average of a history of finite scores. *)
Definition weighted_average (xs : list R) : R :=
  let ws := map (recency_weight (length xs)) (seq 0 (length xs)) in
  Rsum (map (fun xw => fst xw * snd xw) (combine xs ws)) / Rsum ws.

(** The last [n] elements of a list, in order. *)
Definition lastn {A} (n : nat) (l : list A) : list A := skipn (length l - n) l.

(** [landmarks[i]] of an array that has it. *)
Definition landmark (lm : landmarks) (i : nat) : point := nth i lm (mkpoint 0 0 0).

(** Two points that do not coincide. *)
Definition apart (p q : point) : Prop := norm (vsub p q) <> 0.

(* ================================================================== *)
(** * What each analyzer measures on a frame *)
(* ================================================================== *)

Module BrowMeasures.
Import BrowAnalyzer.

Definition center_left (lm : landmarks) : point := mean2 (landmark lm 70, landmark lm 107).
Definition center_right (lm : landmarks) : point := mean2 (landmark lm 336, landmark lm 300).
Definition distance_left (lm : landmarks) : float64 :=
  calculate_distance (landmark lm 70) (landmark lm 107).
Definition distance_right (lm : landmarks) : float64 :=
  calculate_distance (landmark lm 336) (landmark lm 300).
Definition brow_angle (lm : landmarks) : float64 :=
  calculate_angle (center_left lm) (landmark lm 168) (center_right lm).

(** The score before sensitivity scaling and clamping. *)
Definition score_of (use_baseline : bool) (st : state) (lm : landmarks)
  : result float64 :=
  if use_baseline && is_not_None (baseline_distance_left st)
  then fst (baseline_score (distance_left lm) (distance_right lm) (brow_angle lm) st st)
  else Ok (absolute_score (distance_left lm) (distance_right lm) (brow_angle lm)).

Definition nondegenerate (lm : landmarks) : Prop :=
  apart (center_left lm) (landmark lm 168) /\
  apart (center_right lm) (landmark lm 168).

(** No baseline, or one whose measurements are all finite and nonzero. *)
Definition baseline_ok (st : state) : Prop :=
  match baseline_distance_left st with
  | None => True
  | Some bl =>
      nonzero bl /\
      exists br ba, baseline_distance_right st = Some br /\ nonzero br /\
                    baseline_angle st = Some ba /\ nonzero ba
  end.

End BrowMeasures.

Module EyeMeasures.
Import EyeAnalyzer.

Definition aperture_left (lm : landmarks) : float64 :=
  calculate_distance (landmark lm 159) (landmark lm 145).
Definition aperture_right (lm : landmarks) : float64 :=
  calculate_distance (landmark lm 386) (landmark lm 374).
Definition width_left (lm : landmarks) : float64 :=
  calculate_distance (landmark lm 133) (landmark lm 33).
Definition width_right (lm : landmarks) : float64 :=
  calculate_distance (landmark lm 362) (landmark lm 263).

Definition score_of (use_baseline : bool) (st : state) (lm : landmarks)
  : result float64 :=
  if use_baseline && is_not_None (baseline_left_aperture st)
  then fst (baseline_score (aperture_left lm) (aperture_right lm)
              (width_left lm) (width_right lm) st st)
  else Ok (absolute_score (aspect_ratio (aperture_left lm) (width_left lm))
             (aspect_ratio (aperture_right lm) (width_right lm))).

Definition nondegenerate (lm : landmarks) : Prop := True.

Definition baseline_ok (st : state) : Prop :=
  match baseline_left_aperture st with
  | None => True
  | Some la =>
      nonzero la /\
      exists ra lw rw, baseline_right_aperture st = Some ra /\ nonzero ra /\
                       baseline_left_width st = Some lw /\ nonzero lw /\
                       baseline_right_width st = Some rw /\ nonzero rw
  end.

End EyeMeasures.

Module GrimaceMeasures.
Import GrimaceAnalyzer.

Definition corner_distance (lm : landmarks) : float64 :=
  calculate_distance (landmark lm 61) (landmark lm 291).
Definition vertical_distance (lm : landmarks) : float64 :=
  calculate_distance (landmark lm 0) (landmark lm 17).
Definition lip_distance (lm : landmarks) : float64 :=
  calculate_distance (landmark lm 13) (landmark lm 78).
Definition corner_depression (lm : landmarks) : float64 :=
  py_max (Fin 0)
    ((Fin (py (landmark lm 61)) + Fin (py (landmark lm 291))) / Fin 2 -
     (Fin (py (landmark lm 0)) + Fin (py (landmark lm 17))) / Fin 2)%np.

Definition score_of (use_baseline : bool) (st : state) (lm : landmarks)
  : result float64 :=
  if use_baseline && is_not_None (baseline_corner_distance st)
  then fst (baseline_score (corner_distance lm) (vertical_distance lm)
              (lip_distance lm) st st)
  else Ok (absolute_score (corner_distance lm) (vertical_distance lm)
             (corner_depression lm)).

Definition nondegenerate (lm : landmarks) : Prop := True.

Definition baseline_ok (st : state) : Prop :=
  match baseline_corner_distance st with
  | None => True
  | Some bc =>
      nonzero bc /\
      exists bv bl, baseline_vertical_distance st = Some bv /\ nonzero bv /\
                    baseline_lip_distance st = Some bl /\ nonzero bl
  end.

End GrimaceMeasures.

Module JawMeasures.
Import JawAnalyzer.

Definition distance_left (lm : landmarks) : float64 :=
  calculate_distance (landmark lm 234) (landmark lm 93).
Definition distance_right (lm : landmarks) : float64 :=
  calculate_distance (landmark lm 454) (landmark lm 323).
Definition width (lm : landmarks) : float64 :=
  calculate_distance (landmark lm 172) (landmark lm 397).
Definition jaw_angle (lm : landmarks) : float64 :=
  calculate_angle (landmark lm 172) (landmark lm 152) (landmark lm 397).

Definition score_of (use_baseline : bool) (st : state) (lm : landmarks)
  : result float64 :=
  if use_baseline && is_not_None (baseline_left_distance st)
  then fst (baseline_score (distance_left lm) (distance_right lm) (width lm)
              (jaw_angle lm) st st)
  else Ok (absolute_score (distance_left lm) (distance_right lm) (width lm)
             (jaw_angle lm)).

Definition nondegenerate (lm : landmarks) : Prop :=
  apart (landmark lm 172) (landmark lm 152) /\
  apart (landmark lm 397) (landmark lm 152).

Definition baseline_ok (st : state) : Prop :=
  match baseline_left_distance st with
  | None => True
  | Some bl =>
      nonzero bl /\
      exists br bw ba, baseline_right_distance st = Some br /\ nonzero br /\
                       baseline_jaw_width st = Some bw /\ nonzero bw /\
                       baseline_jaw_angle st = Some ba /\ nonzero ba
  end.

End JawMeasures.

Module NasolabialMeasures.
Import NasolabialAnalyzer.

Definition depth_left (lm : landmarks) : pynum :=
  _calculate_fold_depth (landmark lm 48) (landmark lm 98) (landmark lm 61).
Definition depth_right (lm : landmarks) : pynum :=
  _calculate_fold_depth (landmark lm 278) (landmark lm 327) (landmark lm 291).
Definition angle_left (lm : landmarks) : float64 :=
  calculate_angle (landmark lm 98) (landmark lm 48) (landmark lm 61).
Definition angle_right (lm : landmarks) : float64 :=
  calculate_angle (landmark lm 327) (landmark lm 278) (landmark lm 291).

Definition score_of (use_baseline : bool) (st : state) (lm : landmarks)
  : result float64 :=
  if use_baseline && is_not_None (baseline_left_depth st)
  then fst (baseline_score (depth_left lm) (depth_right lm) (angle_left lm)
              (angle_right lm) st st)
  else Ok (absolute_score (depth_left lm) (depth_right lm) (angle_left lm)
             (angle_right lm)).

Definition nondegenerate (lm : landmarks) : Prop :=
  apart (landmark lm 98) (landmark lm 48) /\
  apart (landmark lm 61) (landmark lm 48) /\
  apart (landmark lm 327) (landmark lm 278) /\
  apart (landmark lm 291) (landmark lm 278).

(** A depth that is a finite nonzero NumPy number. *)
Definition nonzero_depth (d : pynum) : Prop :=
  exists x, d = PyFloat (Fin x) /\ x <> 0.

Definition baseline_ok (st : state) : Prop :=
  match baseline_left_depth st with
  | None => True
  | Some dl =>
      nonzero_depth dl /\
      exists dr al ar, baseline_right_depth st = Some dr /\ nonzero_depth dr /\
                       baseline_fold_angle_left st = Some al /\ nonzero al /\
                       baseline_fold_angle_right st = Some ar /\ nonzero ar
  end.

End NasolabialMeasures.

(* ================================================================== *)
(** * The contract the five analyzers share *)
(* ================================================================== *)

(** [FacialAgent] calls every analyzer through the same methods and reads
    the same keys of the result.  The record packs them, with the constants
    of the analyzer and the predicates the statements below use. *)
Module Analyzer.

Record t : Type := make {
  state : Type;
  score_record : Type;
  init : state;
  set_baseline : landmarks -> M state unit;
  analyze : landmarks -> bool -> M state score_record;
  reset_history : M state unit;
  history : state -> list float64;
  (** whether the attribute [analyze] compares with [None] is set *)
  baseline_recorded : state -> bool;
  (** the keys every result has *)
  raw_score : score_record -> float64;
  percentage : score_record -> float64;
  smoothed_score : score_record -> float64;
  smoothed_percentage : score_record -> float64;
  has_baseline : score_record -> bool;
  (** the largest landmark index the analyzer reads *)
  last_index : nat;
  (** the sensitivity multiplier applied before clamping *)
  sensitivity : R;
  (** the score of the branch a call takes, before scaling and clamping *)
  score_of : bool -> state -> landmarks -> result float64;
  (** no zero-length ray in the angles of the analyzer *)
  nondegenerate : landmarks -> Prop;
  (** no baseline, or one of finite nonzero measurements *)
  baseline_ok : state -> Prop
}.

End Analyzer.

Inductive region : Type := Brow | Eye | Grimace | Jaw | Nasolabial.

Definition analyzer_of (r : region) : Analyzer.t :=
  match r with
  | Brow =>
      Analyzer.make BrowAnalyzer.init BrowAnalyzer.set_baseline
        BrowAnalyzer.analyze BrowAnalyzer.reset_history BrowAnalyzer.history
        (fun st => is_not_None (BrowAnalyzer.baseline_distance_left st))
        BrowAnalyzer.tension_score BrowAnalyzer.tension_percentage
        BrowAnalyzer.smoothed_score BrowAnalyzer.smoothed_percentage
        BrowAnalyzer.has_baseline 336 3.5
        BrowMeasures.score_of BrowMeasures.nondegenerate BrowMeasures.baseline_ok
  | Eye =>
      Analyzer.make EyeAnalyzer.init EyeAnalyzer.set_baseline
        EyeAnalyzer.analyze EyeAnalyzer.reset_history EyeAnalyzer.history
        (fun st => is_not_None (EyeAnalyzer.baseline_left_aperture st))
        EyeAnalyzer.squint_score EyeAnalyzer.squint_percentage
        EyeAnalyzer.smoothed_score EyeAnalyzer.smoothed_percentage
        EyeAnalyzer.has_baseline 386 3.5
        EyeMeasures.score_of EyeMeasures.nondegenerate EyeMeasures.baseline_ok
  | Grimace =>
      Analyzer.make GrimaceAnalyzer.init GrimaceAnalyzer.set_baseline
        GrimaceAnalyzer.analyze GrimaceAnalyzer.reset_history GrimaceAnalyzer.history
        (fun st => is_not_None (GrimaceAnalyzer.baseline_corner_distance st))
        GrimaceAnalyzer.grimace_score GrimaceAnalyzer.grimace_percentage
        GrimaceAnalyzer.smoothed_score GrimaceAnalyzer.smoothed_percentage
        GrimaceAnalyzer.has_baseline 291 3.0
        GrimaceMeasures.score_of GrimaceMeasures.nondegenerate
        GrimaceMeasures.baseline_ok
  | Jaw =>
      Analyzer.make JawAnalyzer.init JawAnalyzer.set_baseline
        JawAnalyzer.analyze JawAnalyzer.reset_history JawAnalyzer.history
        (fun st => is_not_None (JawAnalyzer.baseline_left_distance st))
        JawAnalyzer.clench_score JawAnalyzer.clench_percentage
        JawAnalyzer.smoothed_score JawAnalyzer.smoothed_percentage
        JawAnalyzer.has_baseline 454 3.5
        JawMeasures.score_of JawMeasures.nondegenerate JawMeasures.baseline_ok
  | Nasolabial =>
      Analyzer.make NasolabialAnalyzer.init NasolabialAnalyzer.set_baseline
        NasolabialAnalyzer.analyze NasolabialAnalyzer.reset_history
        NasolabialAnalyzer.history
        (fun st => is_not_None (NasolabialAnalyzer.baseline_left_depth st))
        NasolabialAnalyzer.strain_score NasolabialAnalyzer.strain_percentage
        NasolabialAnalyzer.smoothed_score NasolabialAnalyzer.smoothed_percentage
        NasolabialAnalyzer.has_baseline 425 2.5
        NasolabialMeasures.score_of NasolabialMeasures.nondegenerate
        NasolabialMeasures.baseline_ok
  end.

(** The calls a caller can make on an analyzer, and the state a sequence of
    them leaves (a call that raises leaves the state it reached). *)
Inductive op : Type :=
| SetBaseline (lm : landmarks)
| Analyze (lm : landmarks) (use_baseline : bool)
| ResetHistory.

Definition step (A : Analyzer.t) (st : Analyzer.state A) (o : op)
  : Analyzer.state A :=
  match o with
  | SetBaseline lm => snd (Analyzer.set_baseline A lm st)
  | Analyze lm ub => snd (Analyzer.analyze A lm ub st)
  | ResetHistory => snd (Analyzer.reset_history A st)
  end.

Definition run (A : Analyzer.t) (ops : list op) : Analyzer.state A :=
  fold_left (step A) ops (Analyzer.init A).

(** What a returning call of [analyze] has computed from the score of its
    branch: the clamped raw score, the percentages, the pushed history, the
    smoothed score and the flag. *)
Definition analyze_returned (A : Analyzer.t) (st : Analyzer.state A)
  (score : float64) (rec : Analyzer.score_record A) (st' : Analyzer.state A)
  : Prop :=
  let raw := Np.clip (score * Fin (Analyzer.sensitivity A))%np (Fin 0.0) (Fin 1.0) in
  let h := append_history 5 (Analyzer.history A st) raw in
  Analyzer.raw_score A rec = raw /\
  Analyzer.percentage A rec = (raw * Fin 100)%np /\
  Analyzer.history A st' = h /\
  Analyzer.smoothed_score A rec = smooth h raw /\
  Analyzer.smoothed_percentage A rec = (smooth h raw * Fin 100)%np /\
  Analyzer.has_baseline A rec = Analyzer.baseline_recorded A st /\
  Analyzer.baseline_recorded A st' = Analyzer.baseline_recorded A st /\
  (Analyzer.baseline_ok A st -> Analyzer.baseline_ok A st').

(** The raw scores of the returning [analyze] calls since the last
    [reset_history], oldest first, along a sequence of calls. *)
Definition record_score (A : Analyzer.t) (st : Analyzer.state A) (o : op)
  (scores : list float64) : list float64 :=
  match o with
  | SetBaseline _ => scores
  | Analyze lm ub =>
      match fst (Analyzer.analyze A lm ub st) with
      | Ok rec => scores ++ [Analyzer.raw_score A rec]
      | Raise _ => scores
      end
  | ResetHistory => []
  end.

Fixpoint scores_from (A : Analyzer.t) (st : Analyzer.state A) (ops : list op)
  (scores : list float64) : list float64 :=
  match ops with
  | [] => scores
  | o :: ops' => scores_from A (step A st o) ops' (record_score A st o scores)
  end.

Definition scores_since_reset (A : Analyzer.t) (ops : list op) : list float64 :=
  scores_from A (Analyzer.init A) ops [].

(** A synthetic frame of [n] landmarks on a parabola: all distinct, no
    three on a line. *)
Definition synthetic_point (i : nat) : point :=
  mkpoint (IZR (Z.of_nat i)) (IZR (Z.of_nat i * Z.of_nat i)) 0.

Definition synthetic_frame (n : nat) : landmarks := map synthetic_point (seq 0 n).



Definition is_set_baseline (o : op) : bool :=
  match o with SetBaseline _ => true | _ => false end.

(** The synthetic frame with the nose-bridge landmark moved onto the centre
    of the left eyebrow: the left ray of the brow angle has length zero. *)
Definition degenerate_point (i : nat) : point :=
  if (i =? 168)%nat then mean2 (synthetic_point 70, synthetic_point 107)
  else synthetic_point i.

Definition degenerate_frame : landmarks := map degenerate_point (seq 0 N).

(* ================================================================== *)
(** * Frames, sessions and runs of the agent *)
(* ================================================================== *)

(** The frame moved by the vector [t]. *)
Definition translate (t : point) (lm : landmarks) : landmarks :=
  map (fun p => vadd p t) lm.

(** The analyzer of a region inside the agent. *)
Definition analyzer_state (r : region) (s : FacialAgent.state)
  : Analyzer.state (analyzer_of r) :=
  match r as r0 return Analyzer.state (analyzer_of r0) with
  | Brow => FacialAgent.brow s
  | Eye => FacialAgent.eye s
  | Grimace => FacialAgent.grimace s
  | Jaw => FacialAgent.jaw s
  | Nasolabial => FacialAgent.nasolabial s
  end.
(* ================================================================== *)
(** * Arithmetic of finite values *)
(* ================================================================== *)

Lemma Rltb_true (x y : R) : x < y -> Np.Rltb x y = true.
Proof. intros H; unfold Np.Rltb; destruct (Rlt_dec x y); [reflexivity | contradiction]. Qed.

Lemma Rltb_false (x y : R) : ~ x < y -> Np.Rltb x y = false.
Proof. intros H; unfold Np.Rltb; destruct (Rlt_dec x y); [contradiction | reflexivity]. Qed.

Lemma Reqb_true (x y : R) : x = y -> Np.Reqb x y = true.
Proof. intros H; unfold Np.Reqb; destruct (Req_dec_T x y); [reflexivity | contradiction]. Qed.

Lemma Reqb_false (x y : R) : x <> y -> Np.Reqb x y = false.
Proof. intros H; unfold Np.Reqb; destruct (Req_dec_T x y); [contradiction | reflexivity]. Qed.

Lemma div_fin (x y : R) : y <> 0 -> (Fin x / Fin y)%np = Fin (x / y).
Proof. intros H; cbn; rewrite Reqb_false by assumption; reflexivity. Qed.

Lemma div_zero_zero : (Fin 0 / Fin 0)%np = NaN.
Proof. cbn; rewrite !Reqb_true by reflexivity; reflexivity. Qed.

Lemma div_pos_zero (x : R) : 0 < x -> (Fin x / Fin 0)%np = PInf.
Proof.
  intros H; cbn; rewrite Reqb_true by reflexivity.
  rewrite Reqb_false by lra. rewrite Rltb_true by assumption. reflexivity.
Qed.

Lemma finite_Fin (x : R) : finite (Fin x).
Proof. exists x; reflexivity. Qed.

Lemma finite_add (a b : float64) : finite a -> finite b -> finite (a + b)%np.
Proof. intros [x ->] [y ->]; eexists; reflexivity. Qed.

Lemma finite_sub (a b : float64) : finite a -> finite b -> finite (a - b)%np.
Proof. intros [x ->] [y ->]; eexists; reflexivity. Qed.

Lemma finite_mul (a b : float64) : finite a -> finite b -> finite (a * b)%np.
Proof. intros [x ->] [y ->]; eexists; reflexivity. Qed.

Lemma finite_div (a b : float64) : finite a -> nonzero b -> finite (a / b)%np.
Proof. intros [x ->] [y [-> Hy]]; rewrite div_fin by assumption; eexists; reflexivity. Qed.

Lemma finite_abs (a : float64) : finite a -> finite (Np.abs a).
Proof. intros [x ->]; eexists; reflexivity. Qed.

Lemma finite_py_min (a b : float64) : finite a -> finite b -> finite (py_min a b).
Proof. intros Ha Hb; unfold py_min; destruct (Np.ltb b a); assumption. Qed.

Lemma finite_py_max (a b : float64) : finite a -> finite b -> finite (py_max a b).
Proof. intros Ha Hb; unfold py_max; destruct (Np.ltb a b); assumption. Qed.

Lemma nonzero_Fin (x : R) : x <> 0 -> nonzero (Fin x).
Proof. intros H; exists x; split; [reflexivity | assumption]. Qed.

Lemma nonzero_finite (a : float64) : nonzero a -> finite a.
Proof. intros [x [-> _]]; apply finite_Fin. Qed.

Lemma finite_relative_change (c b : float64) :
  finite c -> nonzero b -> finite (relative_change c b).
Proof.
  intros Hc Hb; unfold relative_change.
  apply finite_div; [apply finite_abs, finite_sub | ]; auto using nonzero_finite.
Qed.

Lemma finite_calculate_distance (p q : point) : finite (calculate_distance p q).
Proof. apply finite_Fin. Qed.

Create HintDb fin discriminated.
#[export] Hint Resolve finite_Fin finite_add finite_sub finite_mul finite_div
  finite_abs finite_py_min finite_py_max nonzero_finite finite_relative_change
  finite_calculate_distance : fin.
#[export] Hint Extern 1 (nonzero (Fin _)) => (apply nonzero_Fin; lra) : fin.


Lemma clip_NaN (lo hi : float64) : Np.clip NaN lo hi = NaN.
Proof. reflexivity. Qed.




(* ================================================================== *)
(** * Norms and angles *)
(* ================================================================== *)

Lemma sum_sqr_nonneg (p : point) : 0 <= px p * px p + py p * py p + pz p * pz p.
Proof. nra. Qed.

Lemma norm_nonneg (p : point) : 0 <= norm p.
Proof. apply sqrt_pos. Qed.

Lemma norm_zero (p : point) : norm p = 0 -> px p = 0 /\ py p = 0 /\ pz p = 0.
Proof.
  intros H; apply sqrt_eq_0 in H; [| apply sum_sqr_nonneg].
  repeat split; nra.
Qed.

Lemma norm_vsub_refl (p : point) : norm (vsub p p) = 0.
Proof.
  unfold norm, vsub; cbn.
  replace ((px p - px p) * (px p - px p) + (py p - py p) * (py p - py p) +
           (pz p - pz p) * (pz p - pz p)) with 0 by ring.
  apply sqrt_0.
Qed.

Lemma norm_pos (p : point) : norm p <> 0 -> 0 < norm p.
Proof. intros H; pose proof (norm_nonneg p); lra. Qed.


(** A zero-length ray makes the cosine [0/0]: the angle is NaN. *)
Lemma calculate_angle_degenerate_left (p q : point) : calculate_angle p p q = NaN.
Proof.
  unfold calculate_angle; cbn.
  rewrite norm_vsub_refl.
  rewrite Reqb_true by ring.
  rewrite Reqb_true; [reflexivity |].
  unfold dot, vsub; cbn; ring.
Qed.

Lemma calculate_angle_degenerate_right (p q : point) : calculate_angle p q q = NaN.
Proof.
  unfold calculate_angle; cbn.
  rewrite norm_vsub_refl.
  rewrite Reqb_true by ring.
  rewrite Reqb_true; [reflexivity |].
  unfold dot, vsub; cbn; ring.
Qed.

Lemma relative_change_same (a : float64) : nonzero a -> relative_change a a = Fin 0.
Proof.
  intros [x [-> Hx]]; unfold relative_change; cbn.
  rewrite Reqb_false by assumption. f_equal.
  rewrite Rplus_opp_r, Rabs_R0. unfold Rdiv; ring.
Qed.

Lemma ratio_same (a : float64) : nonzero a -> (a / a)%np = Fin 1.
Proof.
  intros [x [-> Hx]]; rewrite div_fin by assumption. f_equal. field; assumption.
Qed.

Lemma clip_zero (k : R) : Np.clip (Fin 0 * Fin k)%np (Fin 0.0) (Fin 1.0) = Fin 0.
Proof.
  cbn. rewrite Rmult_0_l. rewrite Rltb_false by lra. rewrite Rltb_false by lra.
  reflexivity.
Qed.

Lemma norm_sqr (p : point) : norm p * norm p = dot p p.
Proof. unfold norm, dot. apply sqrt_sqrt. apply sum_sqr_nonneg. Qed.

(** Two rays that are not parallel make a finite nonzero angle. *)
Lemma calculate_angle_nonzero (p1 p2 p3 : point) :
  dot (vsub p1 p2) (vsub p3 p2) * dot (vsub p1 p2) (vsub p3 p2)
  < dot (vsub p1 p2) (vsub p1 p2) * dot (vsub p3 p2) (vsub p3 p2) ->
  nonzero (calculate_angle p1 p2 p3).
Proof.
  intros H. unfold calculate_angle; cbn.
  set (v1 := vsub p1 p2) in *. set (v2 := vsub p3 p2) in *.
  pose proof (norm_sqr v1) as S1. pose proof (norm_sqr v2) as S2.
  pose proof (norm_nonneg v1) as P1. pose proof (norm_nonneg v2) as P2.
  assert (N1 : norm v1 <> 0) by (intros E; rewrite E in S1; nra).
  assert (N2 : norm v2 <> 0) by (intros E; rewrite E in S2; nra).
  assert (Hn : 0 < norm v1 * norm v2) by nra.
  rewrite Reqb_false by lra.
  set (c := dot v1 v2 / (norm v1 * norm v2)).
  assert (Hc : c < 1).
  { unfold c. apply Rmult_lt_reg_r with (r := norm v1 * norm v2); [assumption |].
    unfold Rdiv. rewrite Rmult_assoc, Rinv_l by lra. nra. }
  assert (Hdeg : forall x, -1 <= x < 1 ->
            nonzero (Np.degrees (Np.arccos (Fin x)))).
  { intros x Hx. unfold Np.arccos.
    rewrite Rltb_false by lra. rewrite Rltb_false by lra. cbn.
    apply nonzero_Fin.
    assert (Ha : acos x <> 0).
    { intros E. pose proof (cos_acos x ltac:(lra)) as Hcos.
      rewrite E, cos_0 in Hcos. lra. }
    pose proof PI_RGT_0 as Hpi.
    assert (Hq : 0 < 180 / PI) by (apply Rdiv_lt_0_compat; lra).
    intros E. apply Rmult_integral in E. destruct E; lra. }
  unfold Np.clip, Np.ltb, Np.Rltb.
  destruct (Rlt_dec c (-1)); [apply Hdeg; lra |].
  destruct (Rlt_dec 1 c); [lra | apply Hdeg; lra].
Qed.

(* ================================================================== *)
(** * The history buffer and the smoothing *)
(* ================================================================== *)

Lemma append_history_short (n : nat) (h : list float64) (x : float64) :
  (length h < n)%nat -> append_history n h x = h ++ [x].
Proof.
  intros H; unfold append_history.
  rewrite length_app; cbn [length].
  destruct (Nat.ltb_spec n (length h + 1)); [lia | reflexivity].
Qed.

Lemma append_history_full (n : nat) (h : list float64) (x : float64) :
  (n <= length h)%nat -> append_history n h x = tl (h ++ [x]).
Proof.
  intros H; unfold append_history.
  rewrite length_app; cbn [length].
  destruct (Nat.ltb_spec n (length h + 1)); [reflexivity | lia].
Qed.

Lemma length_tl_app (h : list float64) (x : float64) :
  length (tl (h ++ [x])) = length h.
Proof. destruct h; cbn; [reflexivity |]. rewrite length_app; cbn; lia. Qed.

Lemma append_history_length (n : nat) (h : list float64) (x : float64) :
  (length h <= n)%nat -> (0 < n)%nat ->
  (length (append_history n h x) <= n)%nat /\
  (1 <= length (append_history n h x))%nat.
Proof.
  intros H Hn.
  destruct (Nat.lt_ge_cases (length h) n) as [Hlt | Hge].
  - rewrite append_history_short by assumption. rewrite length_app; cbn; lia.
  - rewrite append_history_full by assumption. rewrite length_tl_app; lia.
Qed.

Lemma append_history_lastn (n : nat) (h : list float64) (x : float64) :
  (length h <= n)%nat -> append_history n h x = lastn n (h ++ [x]).
Proof.
  intros H; unfold lastn. rewrite length_app; cbn.
  destruct (Nat.lt_ge_cases (length h) n) as [Hlt | Hge].
  - rewrite append_history_short by assumption.
    replace (length h + 1 - n)%nat with 0%nat by lia. reflexivity.
  - rewrite append_history_full by assumption.
    replace (length h + 1 - n)%nat with 1%nat by lia.
    destruct h; reflexivity.
Qed.

Lemma lastn_app_lastn {A} (n : nat) (l : list A) (x : A) :
  (0 < n)%nat -> lastn n (lastn n l ++ [x]) = lastn n (l ++ [x]).
Proof.
  intros Hpos; unfold lastn. rewrite !length_app, length_skipn; cbn.
  destruct (Nat.le_gt_cases (length l) n) as [Hle | Hgt].
  - replace (length l - n)%nat with 0%nat by lia. cbn.
    rewrite Nat.sub_0_r. reflexivity.
  - replace (length l - (length l - n) + 1 - n)%nat with 1%nat by lia.
    replace (length l + 1 - n)%nat with (S (length l - n)) by lia.
    rewrite (skipn_app (S (length l - n)) l [x]).
    replace (S (length l - n) - length l)%nat with 0%nat by lia. cbn [skipn].
    assert (Hs : forall (k : nat) (m : list A), (k < length m)%nat ->
              skipn 1 (skipn k m ++ [x]) = skipn (S k) m ++ [x]).
    { induction k as [| k IH]; intros m Hk.
      - destruct m; [cbn in Hk; lia | reflexivity].
      - destruct m as [| a m]; [cbn in Hk; lia |].
        cbn [skipn] in *. apply IH. cbn in Hk; lia. }
    apply Hs. lia.
Qed.



Lemma fold_left_add_Fin (l : list R) (a : R) :
  fold_left Np.add (map Fin l) (Fin a) = Fin (a + Rsum l).
Proof.
  unfold Rsum; revert a; induction l as [| x l IH]; intros a; cbn.
  - f_equal; lra.
  - rewrite IH. f_equal; lra.
Qed.

Lemma sum_Fin (l : list R) : Np.sum (map Fin l) = Fin (Rsum l).
Proof. unfold Np.sum. rewrite fold_left_add_Fin. f_equal; lra. Qed.

Lemma multiply_Fin (xs ws : list R) :
  Np.multiply (map Fin xs) (map Fin ws)
  = map Fin (map (fun xw => fst xw * snd xw) (combine xs ws)).
Proof.
  unfold Np.multiply. revert ws; induction xs as [| x xs IH]; intros [| w ws]; cbn;
    try reflexivity.
  rewrite IH; reflexivity.
Qed.

Lemma linspace_weights (n : nat) :
  Np.linspace 0.5 1.0 n = map Fin (map (recency_weight n) (seq 0 n)).
Proof.
  unfold Np.linspace, recency_weight. rewrite map_map.
  apply map_ext; intros i. f_equal. f_equal. f_equal. lra.
Qed.

(** Every weight of a window of at least two samples lies in [0.5, 1]. *)
Lemma recency_weight_bounds (n i : nat) :
  (2 <= n)%nat -> (i < n)%nat -> 0.5 <= recency_weight n i <= 1.
Proof.
  intros Hn Hi; unfold recency_weight.
  assert (H1 : 0 < INR (n - 1)) by (apply lt_0_INR; lia).
  assert (H2 : 0 <= INR i <= INR (n - 1)).
  { split; [apply pos_INR | apply le_INR; lia]. }
  assert (H3 : 0 <= INR i * (0.5 / INR (n - 1)) <= 0.5).
  { replace (INR i * (0.5 / INR (n - 1))) with (0.5 * (INR i / INR (n - 1)))
      by (field; lra).
    assert (0 <= INR i / INR (n - 1) <= 1).
    { split; [apply Rle_mult_inv_pos; lra |].
      apply Rmult_le_reg_r with (r := INR (n - 1)); [assumption |].
      replace (INR i / INR (n - 1) * INR (n - 1)) with (INR i) by (field; lra).
      lra. }
    lra. }
  lra.
Qed.

Lemma weighted_sums_bounds (xs ws : list R) :
  Forall (fun x => 0 <= x <= 1) xs -> Forall (fun w => 0 < w) ws ->
  0 <= Rsum (map (fun xw => fst xw * snd xw) (combine xs ws)) <= Rsum ws /\
  0 <= Rsum ws.
Proof.
  unfold Rsum.
  intros Hxs; revert ws; induction Hxs as [| x xs Hx _ IH]; intros ws Hws.
  - cbn. induction Hws as [| w ws Hw _ IHw]; cbn in *; lra.
  - destruct Hws as [| w ws Hw Hws]; cbn; [lra |].
    destruct (IH ws Hws) as [[H1 H2] H3]. nra.
Qed.

Lemma weights_positive (n : nat) :
  (2 <= n)%nat -> Forall (fun w => 0 < w) (map (recency_weight n) (seq 0 n)).
Proof.
  intros Hn. apply Forall_forall; intros w Hw.
  apply in_map_iff in Hw as [i [<- Hi]]. apply in_seq in Hi.
  pose proof (@recency_weight_bounds n i Hn ltac:(lia)). lra.
Qed.

Lemma weights_sum_positive (n : nat) :
  (2 <= n)%nat -> 0 < Rsum (map (recency_weight n) (seq 0 n)).
Proof.
  intros Hn. pose proof (weights_positive Hn) as Hall.
  destruct n as [| n]; [lia |].
  cbn [seq map] in *. inversion Hall as [| w ws Hw Hws]; subst.
  destruct (@weighted_sums_bounds [] _ (Forall_nil _) Hws) as [_ H].
  unfold Rsum in *. cbn [fold_right]. lra.
Qed.

(** On a history of finite scores with at least two entries the smoothed
    score is the recency-weighted average. *)
Lemma smooth_weighted_average (xs : list R) (score : float64) :
  (1 < length xs)%nat -> smooth (map Fin xs) score = Fin (weighted_average xs).
Proof.
  intros Hn; unfold smooth. rewrite length_map.
  destruct (Nat.ltb_spec 1 (length xs)); [| lia].
  unfold Np.average. rewrite linspace_weights, multiply_Fin, !sum_Fin.
  rewrite div_fin; [reflexivity |].
  pose proof (@weights_sum_positive (length xs) ltac:(lia)). lra.
Qed.

Lemma smooth_single (h : list float64) (score : float64) :
  (length h <= 1)%nat -> smooth h score = score.
Proof.
  intros H; unfold smooth. destruct (Nat.ltb_spec 1 (length h)); [lia | reflexivity].
Qed.



(** The weights of a full window, and a window of two scores. *)
Example linspace_five :
  Np.linspace 0.5 1.0 5 = [Fin 0.5; Fin 0.625; Fin 0.75; Fin 0.875; Fin 1.0].
Proof. unfold Np.linspace; cbn. repeat (f_equal; try lra). Qed.

Example smooth_two_scores : smooth [Fin 0; Fin 1] (Fin 1) = Fin (2 / 3).
Proof.
  rewrite (smooth_weighted_average [0; 1]) by (cbn; lia).
  f_equal. unfold weighted_average, recency_weight, Rsum; cbn. lra.
Qed.

Example append_history_evicts_oldest :
  append_history 5 [Fin 0.1; Fin 0.2; Fin 0.3; Fin 0.4; Fin 0.5] (Fin 0.6)
  = [Fin 0.2; Fin 0.3; Fin 0.4; Fin 0.5; Fin 0.6].
Proof. reflexivity. Qed.

(* ================================================================== *)
(** * Running the analyzers *)
(* ================================================================== *)

#[local] Arguments nth_error : simpl never.
#[local] Arguments nth : simpl never.
#[local] Arguments relative_change : simpl never.
#[local] Arguments calculate_distance : simpl never.
#[local] Arguments calculate_angle : simpl never.
#[local] Arguments append_history : simpl never.
#[local] Arguments smooth : simpl never.
#[local] Arguments Np.clip : simpl never.

Lemma index_in_range (lm : landmarks) (i : nat) :
  (i < length lm)%nat -> nth_error lm i = Some (landmark lm i).
Proof. intros H; unfold landmark; apply nth_error_nth'; assumption. Qed.

(** Case analysis on the next landmark the goal looks up. *)
Ltac next_index l :=
  match goal with
  | |- context [nth_error l ?i] =>
      let E := fresh "E" in
      destruct (nth_error l i) eqn:E; cbn
  end.

(** A lookup past the end cannot have succeeded. *)
Ltac index_absurd :=
  match goal with
  | E : nth_error ?l ?i = Some _, H : (length ?l <= _)%nat |- _ =>
      let Hsome := fresh "Hsome" in
      assert (nth_error l i <> None) as Hsome by (rewrite E; discriminate);
      apply nth_error_Some in Hsome; lia
  end.

Ltac unfold_monad :=
  unfold index2, index, bind, ret, get, put, lift, modify, number; cbn.

Ltac all_in_range := rewrite !index_in_range by lia; cbn.

Module BrowFacts.
Import BrowAnalyzer BrowMeasures.
#[local] Arguments baseline_score : simpl never.
#[local] Arguments absolute_score : simpl never.

Ltac unfold_indices := unfold eyebrow_left, eyebrow_right.

Lemma brow_baseline_score_run (d1 d2 a : float64) (self s : state) :
  baseline_score d1 d2 a self s =
  match baseline_distance_left self, baseline_distance_right self,
        baseline_angle self with
  | Some bl, Some br, Some ba =>
      (Ok ((relative_change d1 bl + relative_change d2 br + relative_change a ba)
           / Fin 3.0)%np, s)
  | _, _, _ => (Raise TypeError, s)
  end.
Proof.
  unfold baseline_score; unfold_monad.
  destruct (baseline_distance_left self), (baseline_distance_right self),
    (baseline_angle self); reflexivity.
Qed.

Lemma brow_analyze_run (lm : landmarks) (ub : bool) (st : state) :
  (336 < length lm)%nat ->
  analyze lm ub st =
  match score_of ub st lm with
  | Ok score =>
      let raw := Np.clip (score * Fin 3.5)%np (Fin 0.0) (Fin 1.0) in
      let h := append_history history_size (history st) raw in
      (Ok (mkrecord raw (raw * Fin 100)%np (smooth h raw)
             (smooth h raw * Fin 100)%np (distance_left lm) (distance_right lm)
             (brow_angle lm) (is_not_None (baseline_distance_left st))),
       set_history h st)
  | Raise e => (Raise e, st)
  end.
Proof.
  intros H; cbn zeta.
  unfold analyze, score_of; unfold_indices; unfold_monad; all_in_range.
  fold (distance_left lm) (distance_right lm) (center_left lm) (center_right lm).
  fold (brow_angle lm).
  destruct (ub && is_not_None (baseline_distance_left st)); [| reflexivity].
  rewrite brow_baseline_score_run.
  destruct (baseline_distance_left st) eqn:B1, (baseline_distance_right st) eqn:B2,
    (baseline_angle st) eqn:B3; cbn; rewrite ?B1, ?B2, ?B3; reflexivity.
Qed.

Lemma brow_analyze_index_error (lm : landmarks) (ub : bool) (st : state) :
  (length lm <= 336)%nat -> analyze lm ub st = (Raise IndexError, st).
Proof.
  intros H; unfold analyze; unfold_indices; unfold_monad.
  repeat (next_index lm; [| reflexivity]).
  index_absurd.
Qed.

Lemma brow_set_baseline_index_error (lm : landmarks) (st : state) :
  (length lm <= 336)%nat -> fst (set_baseline lm st) = Raise IndexError.
Proof.
  intros H; unfold set_baseline; unfold_indices; unfold_monad.
  repeat (next_index lm; [| reflexivity]).
  index_absurd.
Qed.

Lemma brow_set_baseline_run (lm : landmarks) (st : state) :
  (336 < length lm)%nat ->
  set_baseline lm st =
  (Ok tt, mkstate (Some (distance_left lm)) (Some (distance_right lm))
            (Some (brow_angle lm)) (history st)).
Proof.
  intros H. unfold set_baseline; unfold_indices; unfold_monad; all_in_range.
  reflexivity.
Qed.

Lemma brow_set_baseline_history (lm : landmarks) (st : state) :
  history (snd (set_baseline lm st)) = history st.
Proof.
  unfold set_baseline; unfold_indices; unfold_monad.
  repeat (next_index lm; [| reflexivity]). reflexivity.
Qed.


(** Against the baseline of the same frame every relative change is zero. *)
Lemma brow_same_frame_score (lm : landmarks) (st : state) :
  (336 < length lm)%nat ->
  baseline_ok (snd (set_baseline lm st)) ->
  score_of true (snd (set_baseline lm st)) lm = Ok (Fin 0).
Proof.
  intros H. rewrite brow_set_baseline_run by assumption. cbn [snd].
  unfold baseline_ok, score_of; cbn.
  intros [Hl [br [ba [B2 [Hr [B3 Ha]]]]]].
  injection B2 as <-. injection B3 as <-.
  rewrite brow_baseline_score_run; cbn.
  rewrite !relative_change_same by assumption. cbn.
  rewrite Reqb_false by lra. do 2 f_equal. lra.
Qed.

End BrowFacts.

Module EyeFacts.
Import EyeAnalyzer EyeMeasures.
#[local] Arguments baseline_score : simpl never.
#[local] Arguments absolute_score : simpl never.

Ltac unfold_indices :=
  unfold left_upper, left_lower, right_upper, right_lower, left_inner,
    left_outer, right_inner, right_outer.

Lemma eye_baseline_score_run (a1 a2 w1 w2 : float64) (self s : state) :
  baseline_score a1 a2 w1 w2 self s =
  match baseline_left_aperture self, baseline_right_aperture self,
        baseline_left_width self, baseline_right_width self with
  | Some la, Some ra, Some lw, Some rw =>
      (Ok (((Fin 1.0 - a1 / la + (Fin 1.0 - a2 / ra)) * Fin 0.7 +
            (relative_change w1 lw + relative_change w2 rw) * Fin 0.3)
           / Fin 2.0)%np, s)
  | _, _, _, _ => (Raise TypeError, s)
  end.
Proof.
  unfold baseline_score, bind, number, ret, lift.
  destruct (baseline_left_aperture self), (baseline_right_aperture self),
    (baseline_left_width self), (baseline_right_width self); reflexivity.
Qed.

Lemma eye_analyze_run (lm : landmarks) (ub : bool) (st : state) :
  (386 < length lm)%nat ->
  analyze lm ub st =
  match score_of ub st lm with
  | Ok score =>
      let raw := Np.clip (score * Fin 3.5)%np (Fin 0.0) (Fin 1.0) in
      let h := append_history history_size (history st) raw in
      (Ok (mkrecord raw (raw * Fin 100)%np (smooth h raw)
             (smooth h raw * Fin 100)%np (aperture_left lm) (aperture_right lm)
             (aspect_ratio (aperture_left lm) (width_left lm))
             (aspect_ratio (aperture_right lm) (width_right lm))
             (is_not_None (baseline_left_aperture st))),
       set_history h st)
  | Raise e => (Raise e, st)
  end.
Proof.
  intros H; cbn zeta.
  unfold analyze, score_of; unfold_indices; unfold_monad; all_in_range.
  fold (aperture_left lm) (aperture_right lm) (width_left lm) (width_right lm).
  destruct (ub && is_not_None (baseline_left_aperture st)); [| reflexivity].
  rewrite eye_baseline_score_run.
  destruct (baseline_left_aperture st) eqn:B1, (baseline_right_aperture st) eqn:B2,
    (baseline_left_width st) eqn:B3, (baseline_right_width st) eqn:B4;
    cbn; rewrite ?B1, ?B2, ?B3, ?B4; reflexivity.
Qed.

Lemma eye_analyze_index_error (lm : landmarks) (ub : bool) (st : state) :
  (length lm <= 386)%nat -> analyze lm ub st = (Raise IndexError, st).
Proof.
  intros H; unfold analyze; unfold_indices; unfold_monad.
  repeat (next_index lm; [| reflexivity]).
  index_absurd.
Qed.

Lemma eye_set_baseline_index_error (lm : landmarks) (st : state) :
  (length lm <= 386)%nat -> fst (set_baseline lm st) = Raise IndexError.
Proof.
  intros H; unfold set_baseline; unfold_indices; unfold_monad.
  repeat (next_index lm; [| reflexivity]).
  index_absurd.
Qed.

Lemma eye_set_baseline_run (lm : landmarks) (st : state) :
  (386 < length lm)%nat ->
  set_baseline lm st =
  (Ok tt, mkstate (Some (aperture_left lm)) (Some (aperture_right lm))
            (Some (width_left lm)) (Some (width_right lm)) (history st)).
Proof.
  intros H. unfold set_baseline; unfold_indices; unfold_monad; all_in_range.
  reflexivity.
Qed.

Lemma eye_set_baseline_history (lm : landmarks) (st : state) :
  history (snd (set_baseline lm st)) = history st.
Proof.
  unfold set_baseline; unfold_indices; unfold_monad.
  repeat (next_index lm; [| reflexivity]). reflexivity.
Qed.



Lemma eye_same_frame_score (lm : landmarks) (st : state) :
  (386 < length lm)%nat ->
  baseline_ok (snd (set_baseline lm st)) ->
  score_of true (snd (set_baseline lm st)) lm = Ok (Fin 0).
Proof.
  intros H. rewrite eye_set_baseline_run by assumption. cbn [snd].
  unfold baseline_ok, score_of; cbn.
  intros [Hl [ra [lw [rw [B2 [Hr [B3 [Hlw [B4 Hrw]]]]]]]]].
  injection B2 as <-. injection B3 as <-. injection B4 as <-.
  rewrite eye_baseline_score_run; cbn.
  rewrite !relative_change_same, !ratio_same by assumption. cbn.
  rewrite Reqb_false by lra. do 2 f_equal. lra.
Qed.

End EyeFacts.

Module GrimaceFacts.
Import GrimaceAnalyzer GrimaceMeasures.
#[local] Arguments baseline_score : simpl never.
#[local] Arguments absolute_score : simpl never.

Ltac unfold_indices := unfold mouth_corners, mouth_center, upper_lip, lower_lip.

Lemma grimace_baseline_score_run (c v l : float64) (self s : state) :
  baseline_score c v l self s =
  match baseline_corner_distance self, baseline_vertical_distance self,
        baseline_lip_distance self with
  | Some bc, Some bv, Some bl =>
      (Ok (relative_change c bc * Fin 0.4 + relative_change v bv * Fin 0.3 +
           relative_change l bl * Fin 0.3)%np, s)
  | _, _, _ => (Raise TypeError, s)
  end.
Proof.
  unfold baseline_score, bind, number, ret, lift.
  destruct (baseline_corner_distance self), (baseline_vertical_distance self),
    (baseline_lip_distance self); reflexivity.
Qed.

Lemma grimace_analyze_run (lm : landmarks) (ub : bool) (st : state) :
  (291 < length lm)%nat ->
  analyze lm ub st =
  match score_of ub st lm with
  | Ok score =>
      let raw := Np.clip (score * Fin 3.0)%np (Fin 0.0) (Fin 1.0) in
      let h := append_history history_size (history st) raw in
      (Ok (mkrecord raw (raw * Fin 100)%np (smooth h raw)
             (smooth h raw * Fin 100)%np (corner_distance lm)
             (vertical_distance lm) (corner_depression lm)
             (is_not_None (baseline_corner_distance st))),
       set_history h st)
  | Raise e => (Raise e, st)
  end.
Proof.
  intros H; cbn zeta.
  unfold analyze, score_of; unfold_indices.
  unfold index, bind, ret, get, lift, modify; cbn [fst snd].
  rewrite !index_in_range by lia.
  fold (corner_distance lm) (vertical_distance lm) (lip_distance lm)
    (corner_depression lm).
  destruct (ub && is_not_None (baseline_corner_distance st)); [| reflexivity].
  rewrite grimace_baseline_score_run.
  destruct (baseline_corner_distance st) eqn:B1,
    (baseline_vertical_distance st) eqn:B2, (baseline_lip_distance st) eqn:B3;
    cbn; rewrite ?B1, ?B2, ?B3; reflexivity.
Qed.

Lemma grimace_analyze_index_error (lm : landmarks) (ub : bool) (st : state) :
  (length lm <= 291)%nat -> analyze lm ub st = (Raise IndexError, st).
Proof.
  intros H; unfold analyze; unfold_indices; unfold_monad.
  repeat (next_index lm; [| reflexivity]).
  index_absurd.
Qed.

Lemma grimace_set_baseline_index_error (lm : landmarks) (st : state) :
  (length lm <= 291)%nat -> fst (set_baseline lm st) = Raise IndexError.
Proof.
  intros H; unfold set_baseline; unfold_indices; unfold_monad.
  repeat (next_index lm; [| reflexivity]).
  index_absurd.
Qed.

Lemma grimace_set_baseline_run (lm : landmarks) (st : state) :
  (291 < length lm)%nat ->
  set_baseline lm st =
  (Ok tt, mkstate (Some (corner_distance lm)) (Some (vertical_distance lm))
            (Some (lip_distance lm)) (history st)).
Proof.
  intros H. unfold set_baseline; unfold_indices; unfold_monad; all_in_range.
  reflexivity.
Qed.

Lemma grimace_set_baseline_history (lm : landmarks) (st : state) :
  history (snd (set_baseline lm st)) = history st.
Proof.
  unfold set_baseline; unfold_indices; unfold_monad.
  repeat (next_index lm; [| reflexivity]). reflexivity.
Qed.


Lemma grimace_same_frame_score (lm : landmarks) (st : state) :
  (291 < length lm)%nat ->
  baseline_ok (snd (set_baseline lm st)) ->
  score_of true (snd (set_baseline lm st)) lm = Ok (Fin 0).
Proof.
  intros H. rewrite grimace_set_baseline_run by assumption. cbn [snd].
  unfold baseline_ok, score_of; cbn.
  intros [Hc [bv [bl [B2 [Hv [B3 Hl]]]]]].
  injection B2 as <-. injection B3 as <-.
  rewrite grimace_baseline_score_run; cbn.
  rewrite !relative_change_same by assumption. cbn.
  do 2 f_equal. lra.
Qed.

End GrimaceFacts.

Module JawFacts.
Import JawAnalyzer JawMeasures.
#[local] Arguments baseline_score : simpl never.
#[local] Arguments absolute_score : simpl never.

Ltac unfold_indices :=
  unfold jaw_left, jaw_right, jaw_bottom, jaw_left_angle, jaw_right_angle.

Lemma jaw_baseline_score_run (l r w a : float64) (self s : state) :
  baseline_score l r w a self s =
  match baseline_left_distance self, baseline_right_distance self,
        baseline_jaw_width self, baseline_jaw_angle self with
  | Some bl, Some br, Some bw, Some ba =>
      (Ok (relative_change l bl * Fin 0.25 + relative_change r br * Fin 0.25 +
           relative_change w bw * Fin 0.25 + relative_change a ba * Fin 0.25)%np,
       s)
  | _, _, _, _ => (Raise TypeError, s)
  end.
Proof.
  unfold baseline_score, bind, number, ret, lift.
  destruct (baseline_left_distance self), (baseline_right_distance self),
    (baseline_jaw_width self), (baseline_jaw_angle self); reflexivity.
Qed.

Lemma jaw_analyze_run (lm : landmarks) (ub : bool) (st : state) :
  (454 < length lm)%nat ->
  analyze lm ub st =
  match score_of ub st lm with
  | Ok score =>
      let raw := Np.clip (score * Fin 3.5)%np (Fin 0.0) (Fin 1.0) in
      let h := append_history history_size (history st) raw in
      (Ok (mkrecord raw (raw * Fin 100)%np (smooth h raw)
             (smooth h raw * Fin 100)%np (width lm) (jaw_angle lm)
             (distance_left lm) (distance_right lm)
             (is_not_None (baseline_left_distance st))),
       set_history h st)
  | Raise e => (Raise e, st)
  end.
Proof.
  intros H; cbn zeta.
  unfold analyze, score_of; unfold_indices; unfold_monad; all_in_range.
  fold (distance_left lm) (distance_right lm) (width lm) (jaw_angle lm).
  destruct (ub && is_not_None (baseline_left_distance st)); [| reflexivity].
  rewrite jaw_baseline_score_run.
  destruct (baseline_left_distance st) eqn:B1, (baseline_right_distance st) eqn:B2,
    (baseline_jaw_width st) eqn:B3, (baseline_jaw_angle st) eqn:B4;
    cbn; rewrite ?B1, ?B2, ?B3, ?B4; reflexivity.
Qed.

Lemma jaw_analyze_index_error (lm : landmarks) (ub : bool) (st : state) :
  (length lm <= 454)%nat -> analyze lm ub st = (Raise IndexError, st).
Proof.
  intros H; unfold analyze; unfold_indices; unfold_monad.
  repeat (next_index lm; [| reflexivity]).
  index_absurd.
Qed.

Lemma jaw_set_baseline_index_error (lm : landmarks) (st : state) :
  (length lm <= 454)%nat -> fst (set_baseline lm st) = Raise IndexError.
Proof.
  intros H; unfold set_baseline; unfold_indices; unfold_monad.
  repeat (next_index lm; [| reflexivity]).
  index_absurd.
Qed.

Lemma jaw_set_baseline_run (lm : landmarks) (st : state) :
  (454 < length lm)%nat ->
  set_baseline lm st =
  (Ok tt, mkstate (Some (distance_left lm)) (Some (distance_right lm))
            (Some (width lm)) (Some (jaw_angle lm)) (history st)).
Proof.
  intros H. unfold set_baseline; unfold_indices; unfold_monad; all_in_range.
  reflexivity.
Qed.

Lemma jaw_set_baseline_history (lm : landmarks) (st : state) :
  history (snd (set_baseline lm st)) = history st.
Proof.
  unfold set_baseline; unfold_indices; unfold_monad.
  repeat (next_index lm; [| reflexivity]). reflexivity.
Qed.


Lemma jaw_same_frame_score (lm : landmarks) (st : state) :
  (454 < length lm)%nat ->
  baseline_ok (snd (set_baseline lm st)) ->
  score_of true (snd (set_baseline lm st)) lm = Ok (Fin 0).
Proof.
  intros H. rewrite jaw_set_baseline_run by assumption. cbn [snd].
  unfold baseline_ok, score_of; cbn.
  intros [Hl [br [bw [ba [B2 [Hr [B3 [Hw [B4 Hang]]]]]]]]].
  injection B2 as <-. injection B3 as <-. injection B4 as <-.
  rewrite jaw_baseline_score_run; cbn.
  rewrite !relative_change_same by assumption. cbn.
  do 2 f_equal. lra.
Qed.

End JawFacts.

Module NasolabialFacts.
Import NasolabialAnalyzer NasolabialMeasures.
#[local] Arguments baseline_score : simpl never.
#[local] Arguments absolute_score : simpl never.
#[local] Arguments _calculate_fold_depth : simpl never.
#[local] Arguments depth_change : simpl never.

Ltac unfold_indices :=
  unfold nasolabial_left, nasolabial_right, nose_bottom_left, nose_bottom_right,
    mouth_corner_left, mouth_corner_right, cheek_left, cheek_right.

Lemma nasolabial_depth_change_pure (c : pynum) (b : option pynum) (s : state) :
  depth_change c b s = (fst (depth_change c b s), s).
Proof.
  unfold depth_change, ret, lift.
  destruct b as [[b | b] |], c as [c | c]; try reflexivity.
  destruct (b =? 0)%Z; reflexivity.
Qed.

Lemma nasolabial_depth_change_state (c : pynum) (b : option pynum) (s s' : state) :
  fst (depth_change c b s) = fst (depth_change c b s').
Proof.
  unfold depth_change, ret, lift.
  destruct b as [[b | b] |], c as [c | c]; try reflexivity.
  destruct (b =? 0)%Z; reflexivity.
Qed.

(** Both depths from the guard of [_calculate_fold_depth]: the division is
    one of Python integers and raises. *)
Example depth_change_integer_zeros (s : state) :
  depth_change (PyInt 0) (Some (PyInt 0)) s = (Raise ZeroDivisionError, s).
Proof. reflexivity. Qed.

(** Against a NumPy baseline the depth change is the NumPy expression. *)
Lemma nasolabial_depth_change_float (c : pynum) (b : float64) (s : state) :
  depth_change c (Some (PyFloat b)) s = (Ok (relative_change (to_float c) b), s).
Proof. unfold depth_change, ret; destruct c; reflexivity. Qed.

Lemma nasolabial_baseline_score_pure (dl dr : pynum) (al ar : float64) (self s : state) :
  baseline_score dl dr al ar self s
  = (fst (baseline_score dl dr al ar self self), s).
Proof.
  unfold baseline_score, bind.
  rewrite (nasolabial_depth_change_pure dl (baseline_left_depth self) s).
  rewrite (nasolabial_depth_change_pure dl (baseline_left_depth self) self).
  rewrite (nasolabial_depth_change_state dl (baseline_left_depth self) s self).
  destruct (fst (depth_change dl (baseline_left_depth self) self)); [| reflexivity].
  rewrite (nasolabial_depth_change_pure dr (baseline_right_depth self) s).
  rewrite (nasolabial_depth_change_pure dr (baseline_right_depth self) self).
  rewrite (nasolabial_depth_change_state dr (baseline_right_depth self) s self).
  destruct (fst (depth_change dr (baseline_right_depth self) self)); [| reflexivity].
  unfold number, ret, lift.
  destruct (baseline_fold_angle_left self), (baseline_fold_angle_right self);
    reflexivity.
Qed.

Lemma nasolabial_baseline_score_float (dl dr : pynum) (al ar : float64) (self s : state)
  (bdl bdr bal bar : float64) :
  baseline_left_depth self = Some (PyFloat bdl) ->
  baseline_right_depth self = Some (PyFloat bdr) ->
  baseline_fold_angle_left self = Some bal ->
  baseline_fold_angle_right self = Some bar ->
  baseline_score dl dr al ar self s =
  (Ok (((relative_change (to_float dl) bdl + relative_change (to_float dr) bdr)
        * Fin 0.6 +
        (relative_change al bal + relative_change ar bar) * Fin 0.4)
       / Fin 2.0)%np, s).
Proof.
  intros B1 B2 B3 B4. unfold baseline_score, bind.
  rewrite B1, B2, B3, B4, !nasolabial_depth_change_float. reflexivity.
Qed.

Lemma nasolabial_analyze_run (lm : landmarks) (ub : bool) (st : state) :
  (425 < length lm)%nat ->
  analyze lm ub st =
  match score_of ub st lm with
  | Ok score =>
      let raw := Np.clip (score * Fin 2.5)%np (Fin 0.0) (Fin 1.0) in
      let h := append_history history_size (history st) raw in
      (Ok (mkrecord raw (raw * Fin 100)%np (smooth h raw)
             (smooth h raw * Fin 100)%np (depth_left lm) (depth_right lm)
             (angle_left lm) (angle_right lm)
             (is_not_None (baseline_left_depth st))),
       set_history h st)
  | Raise e => (Raise e, st)
  end.
Proof.
  intros H; cbn zeta.
  unfold analyze, score_of; unfold_indices; unfold_monad; all_in_range.
  fold (depth_left lm) (depth_right lm) (angle_left lm) (angle_right lm).
  destruct (ub && is_not_None (baseline_left_depth st)); [| reflexivity].
  rewrite nasolabial_baseline_score_pure.
  destruct (fst (baseline_score _ _ _ _ st st)); reflexivity.
Qed.

Lemma nasolabial_analyze_index_error (lm : landmarks) (ub : bool) (st : state) :
  (length lm <= 425)%nat -> analyze lm ub st = (Raise IndexError, st).
Proof.
  intros H; unfold analyze; unfold_indices; unfold_monad.
  repeat (next_index lm; [| reflexivity]).
  index_absurd.
Qed.

Lemma nasolabial_set_baseline_index_error (lm : landmarks) (st : state) :
  (length lm <= 425)%nat -> fst (set_baseline lm st) = Raise IndexError.
Proof.
  intros H; unfold set_baseline; unfold_indices; unfold_monad.
  repeat (next_index lm; [| reflexivity]).
  index_absurd.
Qed.

Lemma nasolabial_set_baseline_run (lm : landmarks) (st : state) :
  (425 < length lm)%nat ->
  set_baseline lm st =
  (Ok tt, mkstate (Some (depth_left lm)) (Some (depth_right lm))
            (Some (angle_left lm)) (Some (angle_right lm)) (history st)).
Proof.
  intros H. unfold set_baseline; unfold_indices; unfold_monad; all_in_range.
  reflexivity.
Qed.

Lemma nasolabial_set_baseline_history (lm : landmarks) (st : state) :
  history (snd (set_baseline lm st)) = history st.
Proof.
  unfold set_baseline; unfold_indices; unfold_monad.
  repeat (next_index lm; [| reflexivity]). reflexivity.
Qed.



Lemma nasolabial_same_frame_score (lm : landmarks) (st : state) :
  (425 < length lm)%nat ->
  baseline_ok (snd (set_baseline lm st)) ->
  score_of true (snd (set_baseline lm st)) lm = Ok (Fin 0).
Proof.
  intros H. rewrite nasolabial_set_baseline_run by assumption. cbn [snd].
  unfold baseline_ok, score_of; cbn.
  intros [[xl [El Hxl]] [bdr [bal [bar [B2 [[xr [-> Hxr]] [B3 [Hl [B4 Hr]]]]]]]]].
  injection B2 as B2. injection B3 as <-. injection B4 as <-.
  erewrite nasolabial_baseline_score_float; cbn;
    [| rewrite El; reflexivity | rewrite B2; reflexivity | reflexivity | reflexivity].
  rewrite El, B2; cbn [to_float].
  rewrite !relative_change_same by (assumption || (apply nonzero_Fin; assumption)).
  cbn. rewrite Reqb_false by lra. do 2 f_equal. lra.
Qed.

(** A fold point off the line through the nose and mouth points has a
    nonzero depth. *)
Lemma fold_depth_nonzero (f n m : point) :
  px (vsub f n) * py (vsub m n) - py (vsub f n) * px (vsub m n) <> 0 ->
  nonzero_depth (_calculate_fold_depth f n m).
Proof.
  intros H. unfold _calculate_fold_depth.
  assert (HL : norm (vsub m n) <> 0).
  { intros E. apply norm_zero in E. destruct E as [Ex [Ey _]].
    apply H. rewrite Ex, Ey. ring. }
  rewrite Reqb_false by assumption.
  eexists; split; [reflexivity |].
  intros E. apply norm_zero in E. destruct E as [Ex [Ey _]].
  cbn in Ex, Ey, H.
  set (t := dot (vsub f n) (vdiv (vsub m n) (norm (vsub m n)))) in *.
  set (L := norm (vsub m n)) in *.
  apply H.
  replace (px f - px n) with (t * ((px m - px n) / L)) by lra.
  replace (py f - py n) with (t * ((py m - py n) / L)) by lra.
  unfold Rdiv. ring.
Qed.

End NasolabialFacts.

(* ================================================================== *)
(** * The shared contract, analyzer by analyzer *)
(* ================================================================== *)

Ltac returned :=
  eexists; eexists; split; [reflexivity |];
  unfold analyze_returned; cbn; repeat split; auto.

(** A call on an array that holds every index the analyzer reads returns
    what the score of its branch determines, or raises what that branch
    raised and leaves the analyzer as it was. *)
Lemma analyze_in_range (r : region) (lm : landmarks) (ub : bool)
  (st : Analyzer.state (analyzer_of r)) :
  (Analyzer.last_index (analyzer_of r) < length lm)%nat ->
  match Analyzer.score_of (analyzer_of r) ub st lm with
  | Ok score =>
      exists rec st',
        Analyzer.analyze (analyzer_of r) lm ub st = (Ok rec, st') /\
        analyze_returned (analyzer_of r) st score rec st'
  | Raise e => Analyzer.analyze (analyzer_of r) lm ub st = (Raise e, st)
  end.
Proof.
  destruct r; cbn in *; intros H.
  - rewrite BrowFacts.brow_analyze_run by assumption.
    destruct (BrowMeasures.score_of ub st lm); [returned | reflexivity].
  - rewrite EyeFacts.eye_analyze_run by assumption.
    destruct (EyeMeasures.score_of ub st lm); [returned | reflexivity].
  - rewrite GrimaceFacts.grimace_analyze_run by assumption.
    destruct (GrimaceMeasures.score_of ub st lm); [returned | reflexivity].
  - rewrite JawFacts.jaw_analyze_run by assumption.
    destruct (JawMeasures.score_of ub st lm); [returned | reflexivity].
  - rewrite NasolabialFacts.nasolabial_analyze_run by assumption.
    destruct (NasolabialMeasures.score_of ub st lm); [returned | reflexivity].
Qed.

Lemma analyze_out_of_range (r : region) (lm : landmarks) (ub : bool)
  (st : Analyzer.state (analyzer_of r)) :
  (length lm <= Analyzer.last_index (analyzer_of r))%nat ->
  Analyzer.analyze (analyzer_of r) lm ub st = (Raise IndexError, st).
Proof.
  destruct r; cbn in *; intros H.
  - apply BrowFacts.brow_analyze_index_error; assumption.
  - apply EyeFacts.eye_analyze_index_error; assumption.
  - apply GrimaceFacts.grimace_analyze_index_error; assumption.
  - apply JawFacts.jaw_analyze_index_error; assumption.
  - apply NasolabialFacts.nasolabial_analyze_index_error; assumption.
Qed.

Lemma set_baseline_out_of_range (r : region) (lm : landmarks)
  (st : Analyzer.state (analyzer_of r)) :
  (length lm <= Analyzer.last_index (analyzer_of r))%nat ->
  fst (Analyzer.set_baseline (analyzer_of r) lm st) = Raise IndexError.
Proof.
  destruct r; cbn in *; intros H.
  - apply BrowFacts.brow_set_baseline_index_error; assumption.
  - apply EyeFacts.eye_set_baseline_index_error; assumption.
  - apply GrimaceFacts.grimace_set_baseline_index_error; assumption.
  - apply JawFacts.jaw_set_baseline_index_error; assumption.
  - apply NasolabialFacts.nasolabial_set_baseline_index_error; assumption.
Qed.

Lemma set_baseline_in_range (r : region) (lm : landmarks)
  (st : Analyzer.state (analyzer_of r)) :
  (Analyzer.last_index (analyzer_of r) < length lm)%nat ->
  fst (Analyzer.set_baseline (analyzer_of r) lm st) = Ok tt /\
  Analyzer.baseline_recorded (analyzer_of r)
    (snd (Analyzer.set_baseline (analyzer_of r) lm st)) = true.
Proof.
  destruct r; cbn in *; intros H.
  - rewrite BrowFacts.brow_set_baseline_run by assumption; split; reflexivity.
  - rewrite EyeFacts.eye_set_baseline_run by assumption; split; reflexivity.
  - rewrite GrimaceFacts.grimace_set_baseline_run by assumption; split; reflexivity.
  - rewrite JawFacts.jaw_set_baseline_run by assumption; split; reflexivity.
  - rewrite NasolabialFacts.nasolabial_set_baseline_run by assumption; split; reflexivity.
Qed.

Lemma set_baseline_keeps_history (r : region) (lm : landmarks)
  (st : Analyzer.state (analyzer_of r)) :
  Analyzer.history (analyzer_of r)
    (snd (Analyzer.set_baseline (analyzer_of r) lm st))
  = Analyzer.history (analyzer_of r) st.
Proof.
  destruct r; cbn in *.
  - apply BrowFacts.brow_set_baseline_history.
  - apply EyeFacts.eye_set_baseline_history.
  - apply GrimaceFacts.grimace_set_baseline_history.
  - apply JawFacts.jaw_set_baseline_history.
  - apply NasolabialFacts.nasolabial_set_baseline_history.
Qed.

Lemma reset_history_clears (r : region) (st : Analyzer.state (analyzer_of r)) :
  fst (Analyzer.reset_history (analyzer_of r) st) = Ok tt /\
  Analyzer.history (analyzer_of r)
    (snd (Analyzer.reset_history (analyzer_of r) st)) = [] /\
  Analyzer.baseline_recorded (analyzer_of r)
    (snd (Analyzer.reset_history (analyzer_of r) st))
  = Analyzer.baseline_recorded (analyzer_of r) st.
Proof. destruct r; cbn; repeat split. Qed.

Lemma init_history (r : region) :
  Analyzer.history (analyzer_of r) (Analyzer.init (analyzer_of r)) = [] /\
  Analyzer.baseline_recorded (analyzer_of r) (Analyzer.init (analyzer_of r)) = false.
Proof. destruct r; cbn; split; reflexivity. Qed.


Lemma score_of_same_frame (r : region) (lm : landmarks)
  (st : Analyzer.state (analyzer_of r)) :
  (Analyzer.last_index (analyzer_of r) < length lm)%nat ->
  Analyzer.baseline_ok (analyzer_of r)
    (snd (Analyzer.set_baseline (analyzer_of r) lm st)) ->
  Analyzer.score_of (analyzer_of r) true
    (snd (Analyzer.set_baseline (analyzer_of r) lm st)) lm = Ok (Fin 0).
Proof.
  destruct r; cbn in *.
  - apply BrowFacts.brow_same_frame_score.
  - apply EyeFacts.eye_same_frame_score.
  - apply GrimaceFacts.grimace_same_frame_score.
  - apply JawFacts.jaw_same_frame_score.
  - apply NasolabialFacts.nasolabial_same_frame_score.
Qed.

(** Without a recorded baseline the score is that of the branch on absolute
    measurements whatever the caller asked for, and it does not depend on
    the state of the analyzer. *)
Lemma score_of_no_baseline (r : region) (lm : landmarks) (ub : bool)
  (st st0 : Analyzer.state (analyzer_of r)) :
  Analyzer.baseline_recorded (analyzer_of r) st = false ->
  Analyzer.score_of (analyzer_of r) ub st lm
  = Analyzer.score_of (analyzer_of r) false st0 lm /\
  exists score, Analyzer.score_of (analyzer_of r) false st0 lm = Ok score.
Proof.
  destruct r; cbn in *; intros H.
  - unfold BrowMeasures.score_of. rewrite H, andb_false_r. cbn. eauto.
  - unfold EyeMeasures.score_of. rewrite H, andb_false_r. cbn. eauto.
  - unfold GrimaceMeasures.score_of. rewrite H, andb_false_r. cbn. eauto.
  - unfold JawMeasures.score_of. rewrite H, andb_false_r. cbn. eauto.
  - unfold NasolabialMeasures.score_of. rewrite H, andb_false_r. cbn. eauto.
Qed.

(** What a returning call was: in range, with a branch that returned. *)
Lemma analyze_inv (r : region) (lm : landmarks) (ub : bool)
  (st st' : Analyzer.state (analyzer_of r))
  (rec : Analyzer.score_record (analyzer_of r)) :
  Analyzer.analyze (analyzer_of r) lm ub st = (Ok rec, st') ->
  (Analyzer.last_index (analyzer_of r) < length lm)%nat /\
  exists score,
    Analyzer.score_of (analyzer_of r) ub st lm = Ok score /\
    analyze_returned (analyzer_of r) st score rec st'.
Proof.
  intros H.
  destruct (Nat.le_gt_cases (length lm) (Analyzer.last_index (analyzer_of r)))
    as [Hout | Hin].
  - rewrite analyze_out_of_range in H by assumption. discriminate.
  - split; [assumption |].
    pose proof (analyze_in_range r lm ub st Hin) as Hrun.
    destruct (Analyzer.score_of (analyzer_of r) ub st lm) as [score | e].
    + destruct Hrun as [rec0 [st0 [Hcall Hret]]].
      rewrite Hcall in H. injection H as -> ->.
      exists score; split; [reflexivity | assumption].
    + rewrite Hrun in H. discriminate.
Qed.

(** A call that raises leaves the analyzer as it was. *)
Lemma analyze_raise (r : region) (lm : landmarks) (ub : bool)
  (st st' : Analyzer.state (analyzer_of r)) (e : exn) :
  Analyzer.analyze (analyzer_of r) lm ub st = (Raise e, st') -> st' = st.
Proof.
  intros H.
  destruct (Nat.le_gt_cases (length lm) (Analyzer.last_index (analyzer_of r)))
    as [Hout | Hin].
  - rewrite analyze_out_of_range in H by assumption. congruence.
  - pose proof (analyze_in_range r lm ub st Hin) as Hrun.
    destruct (Analyzer.score_of (analyzer_of r) ub st lm) as [score | e0].
    + destruct Hrun as [rec0 [st0 [Hcall Hret]]].
      rewrite Hcall in H. discriminate.
    + rewrite Hrun in H. congruence.
Qed.

(** In range, the call depends on [use_baseline] only through the score of
    the branch taken. *)
Lemma analyze_same_score (r : region) (lm : landmarks) (ub ub' : bool)
  (st : Analyzer.state (analyzer_of r)) :
  (Analyzer.last_index (analyzer_of r) < length lm)%nat ->
  Analyzer.score_of (analyzer_of r) ub st lm
  = Analyzer.score_of (analyzer_of r) ub' st lm ->
  Analyzer.analyze (analyzer_of r) lm ub st
  = Analyzer.analyze (analyzer_of r) lm ub' st.
Proof.
  destruct r; cbn in *; intros H E.
  - rewrite !BrowFacts.brow_analyze_run, E by assumption; reflexivity.
  - rewrite !EyeFacts.eye_analyze_run, E by assumption; reflexivity.
  - rewrite !GrimaceFacts.grimace_analyze_run, E by assumption; reflexivity.
  - rewrite !JawFacts.jaw_analyze_run, E by assumption; reflexivity.
  - rewrite !NasolabialFacts.nasolabial_analyze_run, E by assumption; reflexivity.
Qed.

(** The branch of a call never raises [IndexError]: only a missing baseline
    attribute or a division of two integer zeros can make it raise. *)
Lemma score_of_not_index_error (r : region) (lm : landmarks) (ub : bool)
  (st : Analyzer.state (analyzer_of r)) :
  Analyzer.score_of (analyzer_of r) ub st lm <> Raise IndexError.
Proof.
  destruct r; cbn in *.
  - unfold BrowMeasures.score_of.
    destruct (ub && _); [| discriminate].
    rewrite BrowFacts.brow_baseline_score_run.
    destruct (BrowAnalyzer.baseline_distance_left st),
      (BrowAnalyzer.baseline_distance_right st),
      (BrowAnalyzer.baseline_angle st); discriminate.
  - unfold EyeMeasures.score_of.
    destruct (ub && _); [| discriminate].
    rewrite EyeFacts.eye_baseline_score_run.
    destruct (EyeAnalyzer.baseline_left_aperture st),
      (EyeAnalyzer.baseline_right_aperture st),
      (EyeAnalyzer.baseline_left_width st),
      (EyeAnalyzer.baseline_right_width st); discriminate.
  - unfold GrimaceMeasures.score_of.
    destruct (ub && _); [| discriminate].
    rewrite GrimaceFacts.grimace_baseline_score_run.
    destruct (GrimaceAnalyzer.baseline_corner_distance st),
      (GrimaceAnalyzer.baseline_vertical_distance st),
      (GrimaceAnalyzer.baseline_lip_distance st); discriminate.
  - unfold JawMeasures.score_of.
    destruct (ub && _); [| discriminate].
    rewrite JawFacts.jaw_baseline_score_run.
    destruct (JawAnalyzer.baseline_left_distance st),
      (JawAnalyzer.baseline_right_distance st),
      (JawAnalyzer.baseline_jaw_width st),
      (JawAnalyzer.baseline_jaw_angle st); discriminate.
  - unfold NasolabialMeasures.score_of.
    destruct (ub && _); [| discriminate].
    unfold NasolabialAnalyzer.baseline_score, NasolabialAnalyzer.depth_change,
      bind, number, ret, lift.
    destruct (NasolabialAnalyzer.baseline_left_depth st) as [[bl | bl] |],
      (NasolabialMeasures.depth_left lm) as [cl | cl]; cbn;
      try destruct (bl =? 0)%Z; cbn; try discriminate;
      destruct (NasolabialAnalyzer.baseline_right_depth st) as [[br | br] |],
        (NasolabialMeasures.depth_right lm) as [cr | cr]; cbn;
        try destruct (br =? 0)%Z; cbn; try discriminate;
        destruct (NasolabialAnalyzer.baseline_fold_angle_left st),
          (NasolabialAnalyzer.baseline_fold_angle_right st); cbn; discriminate.
Qed.

Lemma length_synthetic_frame (n : nat) : length (synthetic_frame n) = n.
Proof. unfold synthetic_frame. rewrite length_map, length_seq. reflexivity. Qed.

Lemma landmark_synthetic_frame (n i : nat) :
  (i < n)%nat -> landmark (synthetic_frame n) i = synthetic_point i.
Proof.
  intros H. unfold landmark, synthetic_frame.
  rewrite nth_indep with (d' := synthetic_point 0)
    by (rewrite length_map, length_seq; assumption).
  rewrite (map_nth synthetic_point (seq 0 n) 0%nat i).
  rewrite seq_nth by assumption. reflexivity.
Qed.

Lemma tl_app_nonempty {A} (h : list A) (x : A) :
  h <> [] -> tl (h ++ [x]) = tl h ++ [x].
Proof. destruct h; [contradiction | reflexivity]. Qed.

(** Along any sequence of calls the history is the last five raw scores
    since the last reset. *)
Lemma history_along (r : region) (ops : list op)
  (st : Analyzer.state (analyzer_of r)) (scores : list float64) :
  Analyzer.history (analyzer_of r) st = lastn 5 scores ->
  (length (Analyzer.history (analyzer_of r) st) <= 5)%nat ->
  Analyzer.history (analyzer_of r) (fold_left (step (analyzer_of r)) ops st)
  = lastn 5 (scores_from (analyzer_of r) st ops scores) /\
  (length (Analyzer.history (analyzer_of r)
             (fold_left (step (analyzer_of r)) ops st)) <= 5)%nat.
Proof.
  revert st scores; induction ops as [| o ops IH]; intros st scores Hh Hlen.
  - cbn. split; assumption.
  - cbn [fold_left scores_from]. apply IH.
    + destruct o as [lm | lm ub |]; cbn [step record_score].
      * rewrite set_baseline_keeps_history. assumption.
      * destruct (Analyzer.analyze (analyzer_of r) lm ub st) as [[rec | e] st'] eqn:E;
          cbn [fst snd].
        -- destruct (analyze_inv r lm ub st E) as [_ [score [_ Hret]]].
           destruct Hret as [Hraw [_ [Hhist _]]].
           rewrite Hhist, <- Hraw.
           rewrite append_history_lastn by assumption.
           rewrite Hh. apply lastn_app_lastn. lia.
        -- apply analyze_raise in E. subst st'. assumption.
      * destruct (reset_history_clears r st) as [_ [-> _]]. reflexivity.
    + destruct o as [lm | lm ub |]; cbn [step].
      * rewrite set_baseline_keeps_history. assumption.
      * destruct (Analyzer.analyze (analyzer_of r) lm ub st) as [[rec | e] st'] eqn:E;
          cbn [snd].
        -- destruct (analyze_inv r lm ub st E) as [_ [score [_ Hret]]].
           destruct Hret as [_ [_ [Hhist _]]].
           rewrite Hhist. apply append_history_length; [assumption | lia].
        -- apply analyze_raise in E. subst st'. assumption.
      * destruct (reset_history_clears r st) as [_ [-> _]]. cbn; lia.
Qed.

(* ================================================================== *)
(** * The synthetic frame *)
(* ================================================================== *)

#[local] Arguments synthetic_frame : simpl never.
#[local] Arguments landmark : simpl never.

Lemma apart_px (p q : point) : px p <> px q -> apart p q.
Proof.
  intros H Hn. apply norm_zero in Hn. destruct Hn as [Hx _]. cbn in Hx. lra.
Qed.

Lemma nonzero_distance (p q : point) : apart p q -> nonzero (calculate_distance p q).
Proof. intros H. unfold calculate_distance. apply nonzero_Fin. exact H. Qed.

Lemma synthetic_apart (i j : nat) :
  i <> j -> apart (synthetic_point i) (synthetic_point j).
Proof.
  intros H. apply apart_px. cbn [px synthetic_point]. intros E.
  apply eq_IZR in E. lia.
Qed.

Ltac synthetic_landmarks :=
  rewrite ?landmark_synthetic_frame by lia.




(** With no baseline recorded, [analyze] with [use_baseline=true] is the
    same call as with [use_baseline=false]; on an array that holds the
    indices the analyzer reads it returns, with [has_baseline] false and the
    raw score of the absolute-measurement formula. *)
Lemma analyze_without_baseline (r : region) (lm : landmarks)
  (st : Analyzer.state (analyzer_of r)) :
  Analyzer.baseline_recorded (analyzer_of r) st = false ->
  Analyzer.analyze (analyzer_of r) lm true st
  = Analyzer.analyze (analyzer_of r) lm false st /\
  ((Analyzer.last_index (analyzer_of r) < length lm)%nat ->
   exists rec st' score,
     Analyzer.analyze (analyzer_of r) lm true st = (Ok rec, st') /\
     Analyzer.has_baseline (analyzer_of r) rec = false /\
     (forall st0, Analyzer.score_of (analyzer_of r) false st0 lm = Ok score) /\
     Analyzer.raw_score (analyzer_of r) rec
     = Np.clip (score * Fin (Analyzer.sensitivity (analyzer_of r)))%np
         (Fin 0.0) (Fin 1.0)).
Proof.
  intros Hnone.
  destruct (score_of_no_baseline r lm true st st Hnone) as [Heq [score Hscore]].
  split.
  - destruct (Nat.le_gt_cases (length lm) (Analyzer.last_index (analyzer_of r)))
      as [Hout | Hin].
    + rewrite !analyze_out_of_range by assumption. reflexivity.
    + apply analyze_same_score; assumption.
  - intros Hin.
    pose proof (analyze_in_range r lm true st Hin) as Ht.
    rewrite Heq, Hscore in Ht.
    destruct Ht as [rec [st' [Hcall [Hraw [_ [_ [_ [_ [Hflag _]]]]]]]]].
    exists rec, st', score. repeat split; try assumption.
    + rewrite Hflag. assumption.
    + intros st0.
      destruct (score_of_no_baseline r lm false st st0 Hnone) as [E1 _].
      rewrite <- E1. exact Hscore.
Qed.





(** Without a call of [set_baseline] no baseline gets recorded. *)
Lemma baseline_stays_unrecorded (r : region) (ops : list op)
  (st : Analyzer.state (analyzer_of r)) :
  forallb (fun o => negb (is_set_baseline o)) ops = true ->
  Analyzer.baseline_recorded (analyzer_of r)
    (fold_left (step (analyzer_of r)) ops st)
  = Analyzer.baseline_recorded (analyzer_of r) st.
Proof.
  revert st; induction ops as [| o ops IH]; intros st Hops; [reflexivity |].
  cbn [forallb] in Hops. apply andb_prop in Hops. destruct Hops as [Ho Hops].
  cbn [fold_left]. rewrite IH by assumption.
  destruct o as [lm | lm ub |]; cbn [step is_set_baseline negb] in *.
  - discriminate.
  - destruct (Analyzer.analyze (analyzer_of r) lm ub st) as [[rec | e] st'] eqn:E;
      cbn [snd].
    + destruct (analyze_inv r lm ub st E) as [_ [score [_ Hret]]].
      apply Hret.
    + apply analyze_raise in E. subst st'. reflexivity.
  - apply reset_history_clears.
Qed.

Ltac synthetic_arith :=
  unfold synthetic_point, mean2, vsub, vadd, vdiv, dot; cbn; lra.

(** Every measurement [set_baseline] records from the synthetic frame of N
    landmarks is finite and nonzero. *)
Lemma synthetic_calibration (r : region) (st : Analyzer.state (analyzer_of r)) :
  Analyzer.baseline_ok (analyzer_of r)
    (snd (Analyzer.set_baseline (analyzer_of r) (synthetic_frame N) st)).
Proof.
  unfold N. destruct r; cbn in *.
  - rewrite BrowFacts.brow_set_baseline_run by (rewrite length_synthetic_frame; lia).
    unfold BrowMeasures.baseline_ok, BrowMeasures.distance_left,
      BrowMeasures.distance_right, BrowMeasures.brow_angle,
      BrowMeasures.center_left, BrowMeasures.center_right.
    cbn. synthetic_landmarks.
    split; [apply nonzero_distance, synthetic_apart; lia |].
    eexists; eexists.
    split; [reflexivity |]. split; [apply nonzero_distance, synthetic_apart; lia |].
    split; [reflexivity |].
    apply calculate_angle_nonzero. synthetic_arith.
  - rewrite EyeFacts.eye_set_baseline_run by (rewrite length_synthetic_frame; lia).
    unfold EyeMeasures.baseline_ok, EyeMeasures.aperture_left,
      EyeMeasures.aperture_right, EyeMeasures.width_left, EyeMeasures.width_right.
    cbn. synthetic_landmarks.
    split; [apply nonzero_distance, synthetic_apart; lia |].
    eexists; eexists; eexists.
    repeat split; try reflexivity; apply nonzero_distance, synthetic_apart; lia.
  - rewrite GrimaceFacts.grimace_set_baseline_run
      by (rewrite length_synthetic_frame; lia).
    unfold GrimaceMeasures.baseline_ok, GrimaceMeasures.corner_distance,
      GrimaceMeasures.vertical_distance, GrimaceMeasures.lip_distance.
    cbn. synthetic_landmarks.
    split; [apply nonzero_distance, synthetic_apart; lia |].
    eexists; eexists.
    repeat split; try reflexivity; apply nonzero_distance, synthetic_apart; lia.
  - rewrite JawFacts.jaw_set_baseline_run by (rewrite length_synthetic_frame; lia).
    unfold JawMeasures.baseline_ok, JawMeasures.distance_left,
      JawMeasures.distance_right, JawMeasures.width, JawMeasures.jaw_angle.
    cbn. synthetic_landmarks.
    split; [apply nonzero_distance, synthetic_apart; lia |].
    eexists; eexists; eexists.
    split; [reflexivity |]. split; [apply nonzero_distance, synthetic_apart; lia |].
    split; [reflexivity |]. split; [apply nonzero_distance, synthetic_apart; lia |].
    split; [reflexivity |].
    apply calculate_angle_nonzero. synthetic_arith.
  - rewrite NasolabialFacts.nasolabial_set_baseline_run
      by (rewrite length_synthetic_frame; lia).
    unfold NasolabialMeasures.baseline_ok, NasolabialMeasures.depth_left,
      NasolabialMeasures.depth_right, NasolabialMeasures.angle_left,
      NasolabialMeasures.angle_right.
    cbn. synthetic_landmarks.
    split; [apply NasolabialFacts.fold_depth_nonzero; synthetic_arith |].
    eexists; eexists; eexists.
    split; [reflexivity |].
    split; [apply NasolabialFacts.fold_depth_nonzero; synthetic_arith |].
    split; [reflexivity |].
    split; [apply calculate_angle_nonzero; synthetic_arith |].
    split; [reflexivity |].
    apply calculate_angle_nonzero; synthetic_arith.
Qed.

#[local] Arguments degenerate_frame : simpl never.

Lemma length_degenerate_frame : length degenerate_frame = N.
Proof. unfold degenerate_frame. rewrite length_map, length_seq. reflexivity. Qed.

Lemma landmark_degenerate_frame (i : nat) :
  (i < N)%nat -> landmark degenerate_frame i = degenerate_point i.
Proof.
  intros H. unfold landmark, degenerate_frame.
  rewrite nth_indep with (d' := degenerate_point 0)
    by (rewrite length_map, length_seq; assumption).
  rewrite (map_nth degenerate_point (seq 0 N) 0%nat i).
  rewrite seq_nth by assumption. reflexivity.
Qed.

(** On the degenerate frame the brow angle is NaN, and so are the raw and
    the smoothed score of the brow analyzer. *)
Lemma brow_degenerate_frame :
  BrowMeasures.brow_angle degenerate_frame = NaN /\
  exists rec st',
    BrowAnalyzer.analyze degenerate_frame true BrowAnalyzer.init = (Ok rec, st') /\
    BrowAnalyzer.tension_score rec = NaN /\
    BrowAnalyzer.smoothed_score rec = NaN /\
    BrowAnalyzer.history st' = [NaN].
Proof.
  assert (Ha : BrowMeasures.brow_angle degenerate_frame = NaN).
  { unfold BrowMeasures.brow_angle, BrowMeasures.center_left.
    rewrite !landmark_degenerate_frame by (unfold N; lia).
    cbn [degenerate_point Nat.eqb].
    apply calculate_angle_degenerate_left. }
  split; [exact Ha |].
  rewrite BrowFacts.brow_analyze_run by (rewrite length_degenerate_frame; unfold N; lia).
  unfold BrowMeasures.score_of. cbn [andb is_not_None BrowAnalyzer.init
                                      BrowAnalyzer.baseline_distance_left].
  rewrite Ha. unfold BrowAnalyzer.absolute_score.
  cbn. eexists; eexists. repeat split.
Qed.

(* ================================================================== *)
(** * The aggregator *)
(* ================================================================== *)




(* ================================================================== *)
(** * The analyzers *)
(* ================================================================== *)



(** C5.  Before any call of [set_baseline], [analyze] with
    [use_baseline=true] is the same call as with [use_baseline=false]: on an
    array that holds the indices the analyzer reads it returns, with
    [has_baseline] false and the clamped score of the absolute-measurement
    formula; no error comes from the missing baseline. *)
Theorem no_baseline_falls_back (r : region) (ops : list op) (lm : landmarks) :
  forallb (fun o => negb (is_set_baseline o)) ops = true ->
  Analyzer.analyze (analyzer_of r) lm true (run (analyzer_of r) ops)
  = Analyzer.analyze (analyzer_of r) lm false (run (analyzer_of r) ops) /\
  ((Analyzer.last_index (analyzer_of r) < length lm)%nat ->
   exists rec st' score,
     Analyzer.analyze (analyzer_of r) lm true (run (analyzer_of r) ops)
     = (Ok rec, st') /\
     Analyzer.has_baseline (analyzer_of r) rec = false /\
     (forall st0, Analyzer.score_of (analyzer_of r) false st0 lm = Ok score) /\
     Analyzer.raw_score (analyzer_of r) rec
     = Np.clip (score * Fin (Analyzer.sensitivity (analyzer_of r)))%np
         (Fin 0.0) (Fin 1.0)).
Proof.
  intros Hops. apply analyze_without_baseline.
  unfold run. rewrite baseline_stays_unrecorded by assumption.
  apply init_history.
Qed.

(** C6 (as the code has it).  The [has_baseline] flag of a returned record
    tells whether a baseline has been recorded, whatever [use_baseline] the
    caller passed. *)
Theorem has_baseline_reports_recorded (r : region) (lm : landmarks)
  (use_baseline : bool) (st st' : Analyzer.state (analyzer_of r))
  (rec : Analyzer.score_record (analyzer_of r)) :
  Analyzer.analyze (analyzer_of r) lm use_baseline st = (Ok rec, st') ->
  Analyzer.has_baseline (analyzer_of r) rec
  = Analyzer.baseline_recorded (analyzer_of r) st.
Proof.
  intros H. destruct (analyze_inv r lm use_baseline st H) as [_ [score [_ Hret]]].
  apply Hret.
Qed.

(** C6 fails as stated: after [set_baseline], a call with
    [use_baseline=false] scores on absolute measurements and still reports
    [has_baseline] true. *)
Lemma has_baseline_is_not_the_mode :
  ~ (forall (r : region) (lm : landmarks) (use_baseline : bool)
       (st st' : Analyzer.state (analyzer_of r))
       (rec : Analyzer.score_record (analyzer_of r)),
       Analyzer.analyze (analyzer_of r) lm use_baseline st = (Ok rec, st') ->
       Analyzer.has_baseline (analyzer_of r) rec
       = use_baseline && Analyzer.baseline_recorded (analyzer_of r) st).
Proof.
  intros Hclaim.
  remember (synthetic_frame 468) as lm eqn:Elm.
  assert (Hin : (Analyzer.last_index (analyzer_of Brow) < length lm)%nat).
  { subst lm; rewrite length_synthetic_frame; cbn; lia. }
  destruct (set_baseline_in_range Brow lm BrowAnalyzer.init Hin) as [_ Hrec].
  remember (snd (Analyzer.set_baseline (analyzer_of Brow) lm BrowAnalyzer.init))
    as st eqn:Est.
  pose proof (analyze_in_range Brow lm false st Hin) as Hrun.
  assert (Hs : Analyzer.score_of (analyzer_of Brow) false st lm
               = Ok (BrowAnalyzer.absolute_score (BrowMeasures.distance_left lm)
                       (BrowMeasures.distance_right lm) (BrowMeasures.brow_angle lm)))
    by reflexivity.
  rewrite Hs in Hrun.
  destruct Hrun as [rec [st' [Hcall Hret]]].
  pose proof (Hclaim Brow lm false st st' rec Hcall) as Hflag.
  destruct Hret as [_ [_ [_ [_ [_ [Hhas _]]]]]].
  rewrite Hhas, Hrec in Hflag.
  discriminate.
Qed.

(** C7.  When the measurements [set_baseline] records from a frame are all
    finite and nonzero, analyzing the same frame against that baseline
    gives a raw score of exactly 0. *)
Theorem baseline_round_trip (r : region) (lm : landmarks)
  (st : Analyzer.state (analyzer_of r)) :
  (Analyzer.last_index (analyzer_of r) < length lm)%nat ->
  Analyzer.baseline_ok (analyzer_of r)
    (snd (Analyzer.set_baseline (analyzer_of r) lm st)) ->
  exists st1 rec st2,
    Analyzer.set_baseline (analyzer_of r) lm st = (Ok tt, st1) /\
    Analyzer.analyze (analyzer_of r) lm true st1 = (Ok rec, st2) /\
    Analyzer.raw_score (analyzer_of r) rec = Fin 0 /\
    Analyzer.has_baseline (analyzer_of r) rec = true.
Proof.
  intros Hin Hok.
  destruct (set_baseline_in_range r lm st Hin) as [Hset Hrec].
  pose proof (score_of_same_frame r lm st Hin Hok) as Hscore.
  pose proof (analyze_in_range r lm true
                (snd (Analyzer.set_baseline (analyzer_of r) lm st)) Hin) as Hrun.
  rewrite Hscore in Hrun. destruct Hrun as [rec [st2 [Hcall Hret]]].
  exists (snd (Analyzer.set_baseline (analyzer_of r) lm st)), rec, st2.
  repeat split.
  - rewrite <- Hset. apply surjective_pairing.
  - assumption.
  - destruct Hret as [-> _]. apply clip_zero.
  - destruct Hret as [_ [_ [_ [_ [_ [-> _]]]]]]. assumption.
Qed.

(** C8.  The smoothed score of a returning call is, when the history after
    the push has more than one entry, the average of the history weighted by
    [recency_weight]: 0.5 on the oldest entry, 1.0 on the newest, in equal
    steps; with a single entry it is the raw score of the call. *)
Theorem smoothing_recency_weighted (r : region) (lm : landmarks)
  (use_baseline : bool) (st st' : Analyzer.state (analyzer_of r))
  (rec : Analyzer.score_record (analyzer_of r)) :
  Analyzer.analyze (analyzer_of r) lm use_baseline st = (Ok rec, st') ->
  let h := Analyzer.history (analyzer_of r) st' in
  let n := length h in
  ((1 < n)%nat ->
   Analyzer.smoothed_score (analyzer_of r) rec
   = Np.average h (map Fin (map (recency_weight n) (seq 0 n))) /\
   (forall xs, h = map Fin xs ->
      Analyzer.smoothed_score (analyzer_of r) rec = Fin (weighted_average xs)) /\
   recency_weight n 0 = 0.5 /\
   recency_weight n (n - 1) = 1 /\
   (forall i, (S i < n)%nat ->
      recency_weight n (S i) - recency_weight n i = 0.5 / INR (n - 1))) /\
  (n = 1%nat ->
   Analyzer.smoothed_score (analyzer_of r) rec
   = Analyzer.raw_score (analyzer_of r) rec).
Proof.
  intros H h n.
  destruct (analyze_inv r lm use_baseline st H) as [_ [score [_ Hret]]].
  destruct Hret as [Hraw [_ [Hhist [Hsm _]]]].
  rewrite <- Hhist in Hsm. fold h in Hsm.
  split.
  - intros Hn. repeat split.
    + rewrite Hsm. unfold smooth. fold n.
      destruct (Nat.ltb_spec 1 n); [| lia].
      rewrite linspace_weights. reflexivity.
    + intros xs Hxs. rewrite Hsm, Hxs.
      apply smooth_weighted_average.
      unfold n in Hn. rewrite Hxs, length_map in Hn. assumption.
    + unfold recency_weight. cbn. lra.
    + unfold recency_weight.
      assert (Hpos : 0 < INR (n - 1)) by (apply lt_0_INR; lia).
      assert (E : INR (n - 1) * / INR (n - 1) = 1) by (apply Rinv_r; lra).
      unfold Rdiv. nra.
    + intros i Hi. unfold recency_weight. rewrite S_INR. lra.
  - intros Hn. rewrite Hsm, Hraw. apply smooth_single. fold n. lia.
Qed.

(** C9.  Along every sequence of calls the history holds at most five
    entries and is the last five raw scores since the last reset, oldest
    first; a returning [analyze] appends its raw score and, when the buffer
    held five entries, drops exactly the oldest. *)
Theorem history_bounded_fifo (r : region) :
  (forall ops : list op,
     (length (Analyzer.history (analyzer_of r) (run (analyzer_of r) ops)) <= 5)%nat /\
     Analyzer.history (analyzer_of r) (run (analyzer_of r) ops)
     = lastn 5 (scores_since_reset (analyzer_of r) ops)) /\
  (forall (lm : landmarks) (use_baseline : bool)
          (st st' : Analyzer.state (analyzer_of r))
          (rec : Analyzer.score_record (analyzer_of r)),
     (length (Analyzer.history (analyzer_of r) st) <= 5)%nat ->
     Analyzer.analyze (analyzer_of r) lm use_baseline st = (Ok rec, st') ->
     let h := Analyzer.history (analyzer_of r) st in
     let raw := Analyzer.raw_score (analyzer_of r) rec in
     (length (Analyzer.history (analyzer_of r) st') <= 5)%nat /\
     Analyzer.history (analyzer_of r) st' = lastn 5 (h ++ [raw]) /\
     ((length h < 5)%nat -> Analyzer.history (analyzer_of r) st' = h ++ [raw]) /\
     (length h = 5%nat -> Analyzer.history (analyzer_of r) st' = tl h ++ [raw])).
Proof.
  split.
  - intros ops. unfold run, scores_since_reset.
    destruct (init_history r) as [Hinit _].
    assert (H0 : Analyzer.history (analyzer_of r) (Analyzer.init (analyzer_of r))
                 = lastn 5 []) by (rewrite Hinit; reflexivity).
    assert (H1 : (length (Analyzer.history (analyzer_of r)
                            (Analyzer.init (analyzer_of r))) <= 5)%nat)
      by (rewrite Hinit; cbn; lia).
    destruct (@history_along r ops _ _ H0 H1) as [Hh Hl]. split; assumption.
  - intros lm ub st st' rec Hlen H h raw.
    destruct (analyze_inv r lm ub st H) as [_ [score [_ Hret]]].
    destruct Hret as [Hraw [_ [Hhist _]]].
    rewrite <- Hraw in Hhist. fold h raw in Hhist. fold h in Hlen.
    rewrite Hhist. repeat split.
    + apply append_history_length; [assumption | lia].
    + apply append_history_lastn; assumption.
    + intros Hlt. apply append_history_short; assumption.
    + intros Hfull. rewrite append_history_full by lia.
      apply tl_app_nonempty. intros ->. cbn in Hfull. lia.
Qed.

(** C10 (as the code has it).  An array too short for an index the analyzer
    reads makes [analyze] and [set_baseline] raise [IndexError]; an array
    that holds those indices is accepted whatever its length. *)
Theorem index_error_when_out_of_range (r : region) (lm : landmarks)
  (use_baseline : bool) (st : Analyzer.state (analyzer_of r)) :
  ((length lm <= Analyzer.last_index (analyzer_of r))%nat ->
   Analyzer.analyze (analyzer_of r) lm use_baseline st = (Raise IndexError, st) /\
   fst (Analyzer.set_baseline (analyzer_of r) lm st) = Raise IndexError) /\
  ((Analyzer.last_index (analyzer_of r) < length lm)%nat ->
   fst (Analyzer.set_baseline (analyzer_of r) lm st) = Ok tt /\
   fst (Analyzer.analyze (analyzer_of r) lm use_baseline st) <> Raise IndexError).
Proof.
  split.
  - intros Hout. split.
    + apply analyze_out_of_range; assumption.
    + apply set_baseline_out_of_range; assumption.
  - intros Hin. split.
    + apply set_baseline_in_range; assumption.
    + pose proof (analyze_in_range r lm use_baseline st Hin) as Hrun.
      pose proof (score_of_not_index_error r lm use_baseline st) as Hne.
      destruct (Analyzer.score_of (analyzer_of r) use_baseline st lm) as [s | e].
      * destruct Hrun as [rec [st' [-> _]]]. discriminate.
      * rewrite Hrun. cbn. congruence.
Qed.

(** C10 fails as stated: a frame of 478 landmarks (the number the detector
    yields with refined landmarks) is not of length N, and both calls
    return. *)
Lemma length_is_not_checked :
  ~ (forall (r : region) (lm : landmarks) (use_baseline : bool)
       (st : Analyzer.state (analyzer_of r)),
       length lm <> N \/ (length lm <= Analyzer.last_index (analyzer_of r))%nat ->
       (exists e, fst (Analyzer.analyze (analyzer_of r) lm use_baseline st) = Raise e) /\
       (exists e, fst (Analyzer.set_baseline (analyzer_of r) lm st) = Raise e)).
Proof.
  intros Hclaim.
  assert (Hlen : length (synthetic_frame 478) <> N)
    by (rewrite length_synthetic_frame; unfold N; lia).
  destruct (Hclaim Brow (synthetic_frame 478) true BrowAnalyzer.init (or_introl Hlen))
    as [_ [e He]].
  assert (Hin : (Analyzer.last_index (analyzer_of Brow)
                 < length (synthetic_frame 478))%nat)
    by (rewrite length_synthetic_frame; cbn; lia).
  destruct (set_baseline_in_range Brow (synthetic_frame 478) BrowAnalyzer.init Hin)
    as [Hok _].
  cbn in He, Hok. rewrite Hok in He. discriminate.
Qed.

(* ================================================================== *)
(** * Degenerate geometry and near-zero baselines *)
(* ================================================================== *)

(** C3 (what the code does).  The fold depth returns 0 when the nose and
    mouth points coincide.  The three-point angle has no such guard: when
    the vertex coincides with an end point the cosine is [0/0] and the
    result is NaN, not 0.  Neither computation raises; the NaN reaches the
    raw and the smoothed score of the analyzer. *)
Theorem degenerate_geometry_results :
  (forall fold p : point,
     NasolabialAnalyzer._calculate_fold_depth fold p p = PyInt 0) /\
  (forall p q : point,
     calculate_angle p p q = NaN /\ calculate_angle q p p = NaN) /\
  calculate_angle (mkpoint 0 0 0) (mkpoint 0 0 0) (mkpoint 1 0 0) = NaN /\
  calculate_angle (mkpoint 0 0 0) (mkpoint 0 0 0) (mkpoint 1 0 0) <> Fin 0 /\
  (exists rec st',
     BrowAnalyzer.analyze degenerate_frame true BrowAnalyzer.init = (Ok rec, st') /\
     BrowAnalyzer.tension_score rec = NaN /\
     BrowAnalyzer.smoothed_score rec = NaN).
Proof.
  split.
  { intros fold p. unfold NasolabialAnalyzer._calculate_fold_depth.
    rewrite norm_vsub_refl. rewrite Reqb_true by reflexivity. reflexivity. }
  split.
  { intros p q. split.
    - apply calculate_angle_degenerate_left.
    - apply calculate_angle_degenerate_right. }
  split; [apply calculate_angle_degenerate_left |].
  split; [rewrite calculate_angle_degenerate_left; discriminate |].
  destruct brow_degenerate_frame as [_ [rec [st' [Hcall [Hraw [Hsm _]]]]]].
  exists rec, st'. repeat split; assumption.
Qed.







(* ================================================================== *)
(** * The statements at concrete inputs *)
(* ================================================================== *)



Lemma no_baseline_falls_back_witness :
  forallb (fun o => negb (is_set_baseline o))
    [Analyze (synthetic_frame N) false; ResetHistory] = true /\
  BrowAnalyzer.analyze (synthetic_frame N) true
    (run (analyzer_of Brow) [Analyze (synthetic_frame N) false; ResetHistory])
  = BrowAnalyzer.analyze (synthetic_frame N) false
      (run (analyzer_of Brow) [Analyze (synthetic_frame N) false; ResetHistory]) /\
  exists rec st',
    BrowAnalyzer.analyze (synthetic_frame N) true
      (run (analyzer_of Brow) [Analyze (synthetic_frame N) false; ResetHistory])
    = (Ok rec, st') /\
    BrowAnalyzer.has_baseline rec = false.
Proof.
  assert (H : forallb (fun o => negb (is_set_baseline o))
                [Analyze (synthetic_frame N) false; ResetHistory] = true)
    by reflexivity.
  split; [exact H |].
  destruct (@no_baseline_falls_back Brow _ (synthetic_frame N) H) as [Heq Hret].
  split; [exact Heq |].
  assert (Hin : (Analyzer.last_index (analyzer_of Brow)
                 < length (synthetic_frame N))%nat)
    by (rewrite length_synthetic_frame; unfold N; cbn; lia).
  destruct (Hret Hin) as [rec [st' [score [Hcall [Hflag _]]]]].
  exists rec, st'. split; assumption.
Defined.

Lemma has_baseline_reports_recorded_witness :
  exists rec st',
    BrowAnalyzer.analyze (synthetic_frame 468) false
      (snd (BrowAnalyzer.set_baseline (synthetic_frame 468) BrowAnalyzer.init))
    = (Ok rec, st') /\
    BrowAnalyzer.has_baseline rec = true.
Proof.
  assert (Hin : (Analyzer.last_index (analyzer_of Brow)
                 < length (synthetic_frame 468))%nat)
    by (rewrite length_synthetic_frame; cbn; lia).
  destruct (set_baseline_in_range Brow (synthetic_frame 468) BrowAnalyzer.init Hin)
    as [_ Hrec].
  pose proof (analyze_in_range Brow (synthetic_frame 468) false
                (snd (BrowAnalyzer.set_baseline (synthetic_frame 468)
                        BrowAnalyzer.init)) Hin) as Hrun.
  destruct Hrun as [rec [st' [Hcall _]]].
  exists rec, st'. split; [exact Hcall |].
  exact (eq_trans (@has_baseline_reports_recorded Brow _ _ _ _ _ Hcall) Hrec).
Defined.

Lemma baseline_round_trip_witness :
  (Analyzer.last_index (analyzer_of Jaw) < length (synthetic_frame N))%nat /\
  Analyzer.baseline_ok (analyzer_of Jaw)
    (snd (JawAnalyzer.set_baseline (synthetic_frame N) JawAnalyzer.init)) /\
  exists st1 rec st2,
    JawAnalyzer.set_baseline (synthetic_frame N) JawAnalyzer.init = (Ok tt, st1) /\
    JawAnalyzer.analyze (synthetic_frame N) true st1 = (Ok rec, st2) /\
    JawAnalyzer.clench_score rec = Fin 0 /\
    JawAnalyzer.has_baseline rec = true.
Proof.
  assert (Hin : (Analyzer.last_index (analyzer_of Jaw)
                 < length (synthetic_frame N))%nat)
    by (rewrite length_synthetic_frame; unfold N; cbn; lia).
  pose proof (synthetic_calibration Jaw JawAnalyzer.init) as Hok.
  split; [exact Hin |]. split; [exact Hok |].
  exact (@baseline_round_trip Jaw (synthetic_frame N) JawAnalyzer.init Hin Hok).
Defined.

Lemma smoothing_recency_weighted_witness :
  exists rec st',
    BrowAnalyzer.analyze (synthetic_frame 468) true
      (BrowAnalyzer.mkstate None None None [Fin 0.5]) = (Ok rec, st') /\
    length (BrowAnalyzer.history st') = 2%nat /\
    BrowAnalyzer.smoothed_score rec
    = Np.average (BrowAnalyzer.history st') [Fin (recency_weight 2 0); Fin (recency_weight 2 1)] /\
    recency_weight 2 0 = 0.5 /\ recency_weight 2 1 = 1.
Proof.
  assert (Hin : (Analyzer.last_index (analyzer_of Brow)
                 < length (synthetic_frame 468))%nat)
    by (rewrite length_synthetic_frame; cbn; lia).
  pose proof (analyze_in_range Brow (synthetic_frame 468) true
                (BrowAnalyzer.mkstate None None None [Fin 0.5]) Hin) as Hrun.
  destruct Hrun as [rec [st' [Hcall Hret]]].
  assert (Hlen : length (BrowAnalyzer.history st') = 2%nat).
  { destruct Hret as [_ [_ [Hh _]]]. cbn in Hh. rewrite Hh. reflexivity. }
  exists rec, st'. split; [exact Hcall |]. split; [exact Hlen |].
  destruct (@smoothing_recency_weighted Brow _ _ _ _ _ Hcall) as [Hmany _].
  cbn in Hmany. rewrite Hlen in Hmany.
  destruct (Hmany ltac:(lia)) as [Havg [_ [H0 [H1 _]]]].
  repeat split; assumption.
Defined.

Lemma history_bounded_fifo_witness :
  exists rec st',
    BrowAnalyzer.analyze (synthetic_frame 468) true
      (BrowAnalyzer.mkstate None None None
         [Fin 0.1; Fin 0.2; Fin 0.3; Fin 0.4; Fin 0.5]) = (Ok rec, st') /\
    BrowAnalyzer.history st'
    = [Fin 0.2; Fin 0.3; Fin 0.4; Fin 0.5; BrowAnalyzer.tension_score rec].
Proof.
  assert (Hin : (Analyzer.last_index (analyzer_of Brow)
                 < length (synthetic_frame 468))%nat)
    by (rewrite length_synthetic_frame; cbn; lia).
  pose proof (analyze_in_range Brow (synthetic_frame 468) true
                (BrowAnalyzer.mkstate None None None
                   [Fin 0.1; Fin 0.2; Fin 0.3; Fin 0.4; Fin 0.5]) Hin) as Hrun.
  destruct Hrun as [rec [st' [Hcall _]]].
  exists rec, st'. split; [exact Hcall |].
  destruct (@history_bounded_fifo Brow) as [_ Hstep].
  assert (Hlen : (length (Analyzer.history (analyzer_of Brow)
                            (BrowAnalyzer.mkstate None None None
                               [Fin 0.1; Fin 0.2; Fin 0.3; Fin 0.4; Fin 0.5]))
                  <= 5)%nat) by (cbn; lia).
  destruct (Hstep _ _ _ _ _ Hlen Hcall) as [_ [_ [_ Hfull]]].
  exact (Hfull eq_refl).
Defined.

Lemma index_error_when_out_of_range_witness :
  (length (synthetic_frame 300) <= Analyzer.last_index (analyzer_of Brow))%nat /\
  BrowAnalyzer.analyze (synthetic_frame 300) true BrowAnalyzer.init
  = (Raise IndexError, BrowAnalyzer.init) /\
  fst (BrowAnalyzer.set_baseline (synthetic_frame 300) BrowAnalyzer.init)
  = Raise IndexError /\
  (Analyzer.last_index (analyzer_of Brow) < length (synthetic_frame 478))%nat /\
  fst (BrowAnalyzer.set_baseline (synthetic_frame 478) BrowAnalyzer.init) = Ok tt /\
  fst (BrowAnalyzer.analyze (synthetic_frame 478) true BrowAnalyzer.init)
  <> Raise IndexError.
Proof.
  assert (Hout : (length (synthetic_frame 300)
                  <= Analyzer.last_index (analyzer_of Brow))%nat)
    by (rewrite length_synthetic_frame; cbn; lia).
  assert (Hin : (Analyzer.last_index (analyzer_of Brow)
                 < length (synthetic_frame 478))%nat)
    by (rewrite length_synthetic_frame; cbn; lia).
  destruct (@index_error_when_out_of_range Brow (synthetic_frame 300) true
              BrowAnalyzer.init) as [Hshort _].
  destruct (@index_error_when_out_of_range Brow (synthetic_frame 478) true
              BrowAnalyzer.init) as [_ Hlong].
  destruct (Hshort Hout) as [Ha Hs]. destruct (Hlong Hin) as [Hs' Ha'].
  repeat (split; [assumption |]). assumption.
Defined.

